(** * kakao-chatbot: components, context and event objects

    A shallow embedding of the validate/render engine of the
    [kakao_chatbot] package ([base.py], [context.py], [event.py],
    [response/components/card.py]) and the properties of its
    specification that concern that engine.

    Python values are dynamically typed, so fields are carried as
    [pyval]; a method that can raise returns a [result]; a method that
    mutates [self] returns the new object. *)

From Stdlib Require Import String Ascii List ZArith Bool Lia.
Import ListNotations.

Local Open Scope string_scope.
Local Open Scope Z_scope.

(* ================================================================== *)
(** ** Python values, exceptions and the error monad *)

(** The exception classes the embedded code can raise.  The four
    [Invalid*Error] classes are those of [customerror.py]; the others
    are Python built-ins.  Messages are not modelled. *)
Inductive error : Type :=
| InvalidTypeError
| InvalidLinkError
| InvalidActionError
| InvalidPayloadError
| ValueError
| AssertionError
| IndexError
| KeyError
| AttributeError
| TypeError.

Inductive result (A : Type) : Type :=
| Ok (a : A)
| Err (e : error).

Arguments Ok {A} a.
Arguments Err {A} e.

Definition bind {A B : Type} (m : result A) (k : A -> result B) : result B :=
  match m with
  | Ok a => k a
  | Err e => Err e
  end.

Notation "x <- m ;; k" := (bind m (fun x => k))
  (at level 61, m at next level, right associativity).
Notation "m ;;; k" := (bind m (fun _ => k))
  (at level 61, right associativity).

(** [[f(x) for x in l]]: left to right, stopping at the first raise. *)
Fixpoint mapM {A B : Type} (f : A -> result B) (l : list A) : result (list B) :=
  match l with
  | [] => Ok []
  | x :: xs => y <- f x ;; ys <- mapM f xs ;; Ok (y :: ys)
  end.

(** [for x in l: f(x)] *)
Fixpoint forM_ {A : Type} (f : A -> result unit) (l : list A) : result unit :=
  match l with
  | [] => Ok tt
  | x :: xs => f x ;;; forM_ f xs
  end.

(** The classes of [response/components/common.py] and
    [response/components/itemcard.py] that [card.py] imports. *)
Inductive leaf_class : Type :=
| Button
| Link
| ListItem
| Profile
| Thumbnail
| ImageTitle
| Item
| ItemListSummary
| ItemProfile
| ItemThumbnail.

Definition leaf_class_eqb (a b : leaf_class) : bool :=
  match a, b with
  | Button, Button | Link, Link | ListItem, ListItem | Profile, Profile
  | Thumbnail, Thumbnail | ImageTitle, ImageTitle | Item, Item
  | ItemListSummary, ItemListSummary | ItemProfile, ItemProfile
  | ItemThumbnail, ItemThumbnail => true
  | _, _ => false
  end.

(** A Python value.  A [dict] is kept as an association list in
    insertion order (the order [items()] iterates in); an instance of
    an imported class is its class and its attribute dictionary. *)
#[warnings="-register-all"]
Inductive pyval : Type :=
| PNone
| PBool (b : bool)
| PInt (z : Z)
| PStr (s : string)
| PList (l : list pyval)
| PDict (d : list (string * pyval))
| PContextParam (value resolved_value : pyval)
| PLeaf (c : leaf_class) (attrs : list (string * pyval)).

Definition pydict : Type := list (string * pyval).

(** [v is None] *)
Definition is_none (v : pyval) : bool :=
  match v with
  | PNone => true
  | _ => false
  end.

(** [bool(v)] *)
Definition truthy (v : pyval) : bool :=
  match v with
  | PNone => false
  | PBool b => b
  | PInt z => negb (z =? 0)
  | PStr s => negb (s =? "")%string
  | PList l => match l with [] => false | _ => true end
  | PDict d => match d with [] => false | _ => true end
  | PContextParam _ _ => true
  | PLeaf _ _ => true
  end.

(** [len(l)] *)
Definition len {A : Type} (l : list A) : Z := Z.of_nat (length l).

(** [key in d] and [d[key]] *)
Fixpoint dict_get (key : string) (d : pydict) : option pyval :=
  match d with
  | [] => None
  | (k, v) :: d' => if (k =? key)%string then Some v else dict_get key d'
  end.

Definition dict_mem (key : string) (d : pydict) : bool :=
  match dict_get key d with
  | Some _ => true
  | None => false
  end.

Definition dict_item (key : string) (d : pydict) : result pyval :=
  match dict_get key d with
  | Some v => Ok v
  | None => Err KeyError
  end.

(** [data.get(key, default)]; only a dict has [get]. *)
Definition get_default (data : pyval) (key : string) (default : pyval)
  : result pyval :=
  match data with
  | PDict d => Ok (match dict_get key d with
                   | Some v => v
                   | None => default
                   end)
  | _ => Err AttributeError
  end.

(** [args[0]] *)
Definition args_0 (args : list pyval) : result pyval :=
  match args with
  | a :: _ => Ok a
  | [] => Err IndexError
  end.

(** [s.startswith(p)] *)
Definition startswith (s p : string) : bool := String.prefix p s.

(** [s.endswith(p)]: some tail of [s] is [p]. *)
Fixpoint endswith (s p : string) : bool :=
  if (s =? p)%string then true
  else match s with
       | EmptyString => false
       | String _ s' => endswith s' p
       end.

(** [s[:-1]] *)
Fixpoint drop_last (s : string) : string :=
  match s with
  | EmptyString => EmptyString
  | String _ EmptyString => EmptyString
  | String c s' => String c (drop_last s')
  end.

(** The types the code passes to [isinstance] and [validate_type]. *)
Inductive pytype : Type :=
| TStr
| TInt
| TDict
| TContextParam
| TLeaf (c : leaf_class).

(** [isinstance(v, t)]; [bool] is a subclass of [int]. *)
Definition isinstance (v : pyval) (t : pytype) : bool :=
  match t, v with
  | TStr, PStr _ => true
  | TInt, PInt _ => true
  | TInt, PBool _ => true
  | TDict, PDict _ => true
  | TContextParam, PContextParam _ _ => true
  | TLeaf c, PLeaf c' _ => leaf_class_eqb c c'
  | _, _ => false
  end.

(* ================================================================== *)
(** ** validation.py *)

Module validation.

(** Modelled from the spec: [validation.py] is not among the sources.
    Section 4.1: each validator fails with the type-mismatch error
    ([InvalidTypeError] in [customerror.py]) when a value is present
    but wrong-typed; [disallow_none] additionally fails on an absent
    value; zero or more values are accepted in one call, stopping at
    the first failure.  The calls in the sources that reject [None]
    pass [disallow_none=True]; the others pass nothing, which is
    written [false] here. *)
Definition validate_one (t : pytype) (disallow_none : bool) (value : pyval)
  : result unit :=
  if is_none value then
    if disallow_none then Err InvalidTypeError else Ok tt
  else if isinstance value t then Ok tt
  else Err InvalidTypeError.

(** Modelled from the spec: [validate_type] of the absent [validation.py],
    called with the expected type and any number of values, section 4.1:
    the values are checked in order and the first failure is raised. *)
Definition validate_type (t : pytype) (values : list pyval)
  (disallow_none : bool) : result unit :=
  forM_ (validate_one t disallow_none) values.

(** Modelled from the spec: [validate_str], taking any number of values,
    of the absent [validation.py], section 4.1, the string instance of
    the type check. *)
Definition validate_str (values : list pyval) (disallow_none : bool)
  : result unit :=
  validate_type TStr values disallow_none.

(** Modelled from the spec: [validate_int], taking any number of values,
    of the absent [validation.py], section 4.1, the integer instance of
    the type check. *)
Definition validate_int (values : list pyval) (disallow_none : bool)
  : result unit :=
  validate_type TInt values disallow_none.

End validation.

Import validation.

(* ================================================================== *)
(** ** base.py *)

Module BaseModel.

(** [remove_none_item]: the pairs of [base] whose value is not [None],
    in the order of [base]. *)
Fixpoint remove_none_item (base : pydict) : pydict :=
  match base with
  | [] => []
  | (key, value) :: rest =>
      if is_none value then remove_none_item rest
      else (key, value) :: remove_none_item rest
  end.

End BaseModel.

Import BaseModel.

(* ================================================================== *)
(** ** context.py *)

Module ContextParam.

(** A [ContextParam] object is the value [PContextParam value
    resolved_value]; the methods take the two attributes. *)

Definition validate (value resolved_value : pyval) : result unit :=
  validate_str [value; resolved_value] false.

Definition render (value resolved_value : pyval) : result pyval :=
  validate value resolved_value ;;;
  Ok value.

(** [from_dict]: the object as the pair of its attributes. *)
Definition from_dict (data : pyval) : result pyval :=
  value <- get_default data "value" (PStr "") ;;
  resolved_value <- get_default data "resolvedValue" (PStr "") ;;
  Ok (PContextParam value resolved_value).

(** The [is_empty] property inherited from [SkillTemplate]:
    [not bool(self.render())]. *)
Definition is_empty (value resolved_value : pyval) : result bool :=
  r <- render value resolved_value ;;
  Ok (negb (truthy r)).

End ContextParam.

Module Context.

Record t : Type := mk {
  name : pyval;
  lifespan : pyval;
  ttl : pyval;
  params : pyval
}.

(** [__init__]: [self.params = params or {}] *)
Definition init (name lifespan ttl params : pyval) : t :=
  mk name lifespan ttl (if truthy params then params else PDict []).

(** [param.render() if isinstance(param, ContextParam) else param] *)
Definition render_param (param : pyval) : result pyval :=
  match param with
  | PContextParam value resolved_value => ContextParam.render value resolved_value
  | _ => Ok param
  end.

(** The dict comprehension over [self.params.items()]. *)
Definition render_params (params : pyval) : result pyval :=
  if truthy params then
    match params with
    | PDict d =>
        d' <- mapM (fun kv => v <- render_param (snd kv) ;; Ok (fst kv, v)) d ;;
        Ok (PDict d')
    | _ => Err AttributeError
    end
  else Ok PNone.

Definition render (self : t) : result pyval :=
  ps <- render_params (params self) ;;
  Ok (PDict (remove_none_item
    [ ("name", name self);
      ("lifeSpan", lifespan self);
      ("ttl", ttl self);
      ("params", ps) ])).

Definition validate (self : t) : result unit :=
  validate_str [name self] false ;;;
  validate_int [lifespan self; ttl self] false ;;;
  validate_type TDict [params self] false.

(** [from_dict]; the comprehension runs over
    [data.get("params", {}).items()], which only a dict has. *)
Definition from_dict (data : pyval) : result t :=
  name <- get_default data "name" (PStr "") ;;
  lifespan <- get_default data "lifespan" (PStr "") ;;
  ttl <- get_default data "ttl" PNone ;;
  ps <- get_default data "params" (PDict []) ;;
  params <- match ps with
            | PDict d =>
                mapM (fun kv => v <- ContextParam.from_dict (snd kv) ;;
                                Ok (fst kv, v)) d
            | _ => Err AttributeError
            end ;;
  Ok (init name lifespan ttl (PDict params)).

(** The [is_empty] property inherited from [SkillTemplate]:
    [not bool(self.render())]. *)
Definition is_empty (self : t) : result bool :=
  r <- render self ;;
  Ok (negb (truthy r)).

End Context.

(* ================================================================== *)
(** ** event.py *)

Module EventUser.

Record t : Type := mk {
  id_type : pyval;
  id : pyval;
  properties : pyval
}.

Definition type_list : list string :=
  ["appUserId"; "plusfriendUserKey"; "botUserKey"].

(** [self.id_type in self.type_list] *)
Definition in_type_list (v : pyval) : bool :=
  match v with
  | PStr s => existsb (String.eqb s) type_list
  | _ => false
  end.

Definition validate (self : t) : result unit :=
  (if in_type_list (id_type self) then Ok tt else Err AssertionError) ;;;
  validate_str [id self] true ;;;
  validate_type TDict [properties self] false.

Definition render (self : t) : pyval :=
  PDict (remove_none_item
    [ ("type", id_type self);
      ("id", id self);
      ("properties", properties self) ]).

End EventUser.

Module EventAPI.

Record t : Type := mk {
  bot_id : pyval;
  api_key : pyval;
  event : pyval;
  users : list EventUser.t;
  data : pyval;
  params : pyval;
  option : pyval;
  is_devchannel : bool;
  max_user : Z
}.

(** [None] replaced by an empty dict. *)
Definition or_empty (v : pyval) : pyval :=
  if is_none v then PDict [] else v.

(** [__init__]; [bot_id.endswith] needs a string when [is_devchannel]
    is set. *)
Definition init (bot_id api_key event : pyval)
  (users : Datatypes.option (list EventUser.t))
  (data params option : pyval) (is_devchannel : bool) (max_user : Z)
  : result t :=
  bot_id' <- (if is_devchannel then
                match bot_id with
                | PStr s => Ok (PStr (if endswith s "!" then drop_last s else s))
                | _ => Err AttributeError
                end
              else Ok bot_id) ;;
  Ok (mk bot_id' api_key event
        (match users with Some us => us | None => [] end)
        (or_empty data) (or_empty params) option is_devchannel max_user).

Definition validate (self : t) : result unit :=
  validate_str [bot_id self; api_key self; event self] true ;;;
  (match users self with
   | [] => Err AssertionError
   | _ => Ok tt
   end) ;;;
  (if len (users self) >? max_user self then Err AssertionError else Ok tt) ;;;
  forM_ EventUser.validate (users self) ;;;
  validate_type TDict [params self; option self; data self] false.

Definition render (self : t) : result pyval :=
  let event :=
    remove_none_item
      [ ("name", event self);
        ("data", if truthy (data self) then data self else PNone) ] in
  validate self ;;;
  Ok (PDict (remove_none_item
    [ ("event", PDict event);
      ("user", match users self with
               | [] => PNone
               | us => PList (map EventUser.render us)
               end);
      ("params", if truthy (params self) then params self else PNone);
      ("option", option self) ])).

(** The [headers] property: it stores the prefixed key back into
    [self.api_key], so the object is returned with the headers. *)
Definition headers (self : t) : result (pydict * t) :=
  match api_key self with
  | PStr k =>
      let k' := if negb (startswith k "KakaoAK ") then "KakaoAK " ++ k else k in
      Ok ([ ("Content-Type", PStr "application/json");
            ("Authorization", PStr k') ],
          mk (bot_id self) (PStr k') (event self) (users self) (data self)
             (params self) (option self) (is_devchannel self) (max_user self))
  | _ => Err AttributeError
  end.

(** The [url] property, for a string [bot_id]; how an f-string shows
    another value is not modelled. *)
Definition url (self : t) : Datatypes.option string :=
  match bot_id self with
  | PStr b =>
      Some (if is_devchannel self
            then "https://dev-bot-api.kakao.com/v2/bots/'" ++ b ++ "!'/talk"
            else "https://bot-api.kakao.com/v2/bots/" ++ b ++ "/talk")
  | _ => None
  end.

(** The [body] property. *)
Definition body (self : t) : result pyval := render self.

End EventAPI.

Module CheckEventAPI.

Record t : Type := mk {
  task_id : pyval;
  api_key : pyval
}.

Definition validate (self : t) : result unit :=
  validate_str [task_id self; api_key self] true.

Definition render (self : t) : result pydict :=
  validate self ;;;
  match api_key self with
  | PStr k =>
      let k' := if negb (startswith k "KakaoAK ") then "KakaoAK " ++ k else k in
      Ok [ ("Authorization", PStr k');
           ("Content-Type", PStr "application/json") ]
  | _ => Err AttributeError
  end.

(** The [headers] property. *)
Definition headers (self : t) : result pydict := render self.

End CheckEventAPI.

Module CheckEventAPIResponse.

Record t : Type := mk {
  task_id : pyval;
  status : pyval;
  all_request_count : pyval;
  success_count : pyval;
  fail : pyval
}.

Definition from_dict (data : pyval) : result t :=
  task_id <- get_default data "task_id" (PStr "") ;;
  status <- get_default data "status" (PStr "") ;;
  all_request_count <- get_default data "all_request_count" (PInt 0) ;;
  success_count <- get_default data "success_count" (PInt 0) ;;
  fail <- get_default data "fail" PNone ;;
  Ok (mk task_id status all_request_count success_count fail).

(** The [fail_count] property. *)
Definition fail_count (self : t) : result pyval :=
  if is_none (fail self) then Ok (PInt 0)
  else get_default (fail self) "count" (PInt 0).

(** The [fail_list] property. *)
Definition fail_list (self : t) : result pyval :=
  if is_none (fail self) then Ok (PList [])
  else get_default (fail self) "list" (PList []).

End CheckEventAPIResponse.

(* ================================================================== *)
(** ** The classes imported by card.py *)

(** The code of [Button], [ListItem], [Thumbnail] and the other
    imported classes that [card.py] calls.  [common.py] and
    [itemcard.py] are not among the sources, so the cards are embedded
    over any implementation of these three operations. *)
Class LeafCode : Type := {
  (** the constructor call of a class on positional and keyword
      arguments: the attributes of the new instance, or what the
      constructor raises *)
  leaf_new : leaf_class -> list pyval -> pydict -> result pydict;
  (** the [render] method of an instance, given its class and
      attributes *)
  leaf_render : leaf_class -> pydict -> result pyval;
  (** [a == b], as [list.remove] compares its elements *)
  py_eq : pyval -> pyval -> bool
}.

Section Calls.
Context {L : LeafCode}.

(** [v.render()] on whatever value [v] holds. *)
Definition call_render (v : pyval) : result pyval :=
  match v with
  | PLeaf c attrs => leaf_render c attrs
  | PContextParam value resolved_value => ContextParam.render value resolved_value
  | _ => Err AttributeError
  end.

(** [v.render() if v else None] *)
Definition render_if (v : pyval) : result pyval :=
  if truthy v then call_render v else Ok PNone.

(** [[b.render() for b in bs] if bs else None] *)
Definition render_list_if (bs : list pyval) : result pyval :=
  match bs with
  | [] => Ok PNone
  | _ => rs <- mapM call_render bs ;; Ok (PList rs)
  end.

(** [l.remove(x)]: the first element equal to [x] goes. *)
Fixpoint list_remove (x : pyval) (l : list pyval) : result (list pyval) :=
  match l with
  | [] => Err ValueError
  | y :: l' =>
      if py_eq y x then Ok l'
      else r <- list_remove x l' ;; Ok (y :: r)
  end.

(** [x in l]: some element is equal to [x]. *)
Definition list_in (x : pyval) (l : list pyval) : bool :=
  existsb (fun y => py_eq y x) l.

End Calls.

(** [l.pop(i)] for an integer [i], counted from the end when negative. *)
Definition list_pop_at (i : Z) (l : list pyval) : result (list pyval) :=
  let j := if i <? 0 then i + len l else i in
  if (j <? 0) || (len l <=? j) then Err IndexError
  else Ok (firstn (Z.to_nat j) l ++ skipn (S (Z.to_nat j)) l)%list.

(** [l.pop(v)]: [v] has to be an integer ([True] is 1, [False] is 0). *)
Definition list_pop (v : pyval) (l : list pyval) : result (list pyval) :=
  match v with
  | PInt i => list_pop_at i l
  | PBool b => list_pop_at (if b then 1 else 0) l
  | _ => Err TypeError
  end.

(** [len(args) == n and isinstance(args[0], t)], the test the
    two-mode methods start with. *)
Definition sole_instance (args : list pyval) (t : pytype) : bool :=
  (len args =? 1) &&
  match args_0 args with
  | Ok a => isinstance a t
  | Err _ => false
  end.

(* ================================================================== *)
(** ** response/base.py *)

Module ParentComponent.

(** Modelled from the spec: [response/base.py], where the component
    base class lives, is not among the sources.  Section 4.3 gives the
    validation of the card base one check of its own (every entry of
    the button list is a [Button]) and gives the component base under
    it none, so its [validate] accepts. *)
Definition validate : result unit := Ok tt.

End ParentComponent.

(* ================================================================== *)
(** ** response/components/card.py *)

Module ParentCardComponent.
Section Methods.
Context {L : LeafCode}.

(** [__init__]: [None] becomes an empty list. *)
Definition init (buttons : option (list pyval)) : list pyval :=
  match buttons with
  | None => []
  | Some bs => bs
  end.

Definition validate (buttons : list pyval) : result unit :=
  ParentComponent.validate ;;;
  match buttons with
  | [] => Ok tt
  | _ => forM_ (fun button => validate_type (TLeaf Button) [button] false) buttons
  end.

(** [add_button( *args, **kwargs)], on the button list it appends to. *)
Definition add_button (buttons : list pyval) (args : list pyval)
  (kwargs : pydict) : result (list pyval) :=
  if sole_instance args (TLeaf Button) then
    a <- args_0 args ;; Ok (buttons ++ [a])%list
  else if (len args =? 0) && dict_mem "button" kwargs then
    b <- dict_item "button" kwargs ;; Ok (buttons ++ [b])%list
  else
    button <- leaf_new Button args kwargs ;;
    Ok (buttons ++ [PLeaf Button button])%list.


(** [remove_button(button)], on the button list: [self.buttons.remove]. *)
Definition remove_button (buttons : list pyval) (button : pyval)
  : result (list pyval) :=
  list_remove button buttons.

End Methods.
End ParentCardComponent.

Module TextCardComponent.
Section Methods.
Context {L : LeafCode}.

Record t : Type := mk {
  buttons : list pyval;
  title : pyval;
  description : pyval
}.

Definition init (title description : pyval) (buttons : option (list pyval)) : t :=
  mk (ParentCardComponent.init buttons) title description.

Definition validate (self : t) : result unit :=
  ParentCardComponent.validate (buttons self) ;;;
  (if is_none (title self) && is_none (description self)
   then Err ValueError else Ok tt) ;;;
  if is_none (title self) then validate_str [description self] false
  else validate_str [title self] false.

Definition render (self : t) : result pyval :=
  validate self ;;;
  bs <- render_list_if (buttons self) ;;
  Ok (PDict (remove_none_item
    [ ("title", title self);
      ("description", description self);
      ("buttons", bs) ])).

End Methods.
End TextCardComponent.

Module BasicCardComponent.
Section Methods.
Context {L : LeafCode}.

Record t : Type := mk {
  buttons : list pyval;
  thumbnail : pyval;
  title : pyval;
  description : pyval;
  forwardable : pyval
}.

Definition validate (self : t) : result unit :=
  ParentCardComponent.validate (buttons self) ;;;
  validate_type (TLeaf Thumbnail) [thumbnail self] false ;;;
  validate_str [title self; description self] false.

Definition render (self : t) : result pyval :=
  validate self ;;;
  th <- call_render (thumbnail self) ;;
  bs <- render_list_if (buttons self) ;;
  Ok (PDict (remove_none_item
    [ ("thumbnail", th);
      ("title", title self);
      ("description", description self);
      ("buttons", bs);
      ("forwardable", if truthy (forwardable self) then forwardable self
                      else PNone) ])).

End Methods.
End BasicCardComponent.

Module CommerceCardComponent.
Section Methods.
Context {L : LeafCode}.

Record t : Type := mk {
  buttons : list pyval;
  price : pyval;
  thumbnails : list pyval;
  title : pyval;
  description : pyval;
  currency : pyval;
  discount : pyval;
  discount_rate : pyval;
  discount_price : pyval;
  profile : pyval
}.

(** [assert self.currency == "won"] *)
Definition is_won (v : pyval) : bool :=
  match v with
  | PStr s => (s =? "won")%string
  | _ => false
  end.

Definition validate (self : t) : result unit :=
  ParentCardComponent.validate (buttons self) ;;;
  validate_int [price self] true ;;;
  forM_ (fun thumbnail => validate_type (TLeaf Thumbnail) [thumbnail] false)
        (thumbnails self) ;;;
  validate_str [title self; description self] false ;;;
  (if truthy (currency self) then
     if is_won (currency self) then Ok tt else Err AssertionError
   else Ok tt) ;;;
  validate_int [discount self; discount_price self; discount_rate self;
                discount_price self] false ;;;
  validate_type (TLeaf Profile) [profile self] false.

Definition render (self : t) : result pyval :=
  validate self ;;;
  ths <- mapM call_render (thumbnails self) ;;
  pr <- render_if (profile self) ;;
  bs <- render_list_if (buttons self) ;;
  Ok (PDict (remove_none_item
    [ ("price", price self);
      ("thumbnails", PList ths);
      ("title", title self);
      ("description", description self);
      ("currency", currency self);
      ("discount", discount self);
      ("discountRate", discount_rate self);
      ("discountPrice", discount_price self);
      ("profile", pr);
      ("buttons", bs) ])).

End Methods.
End CommerceCardComponent.

Module ListCardComponent.
Section Methods.
Context {L : LeafCode}.

Record t : Type := mk {
  buttons : list pyval;
  header : pyval;
  items : list pyval;
  max_buttons : Z;
  max_items : Z
}.

(** [__init__]: a [str] header is wrapped as [ListItem(title=header)]. *)
Definition init (header : pyval) (items buttons : option (list pyval))
  (max_buttons max_items : Z) : result t :=
  header' <- (if isinstance header TStr then
                h <- leaf_new ListItem [] [("title", header)] ;;
                Ok (PLeaf ListItem h)
              else Ok header) ;;
  Ok (mk (ParentCardComponent.init buttons) header'
         (match items with None => [] | Some its => its end)
         max_buttons max_items).

Definition validate (self : t) : result unit :=
  ParentCardComponent.validate (buttons self) ;;;
  (if len (items self) <? 1 then Err AssertionError else Ok tt) ;;;
  (if len (items self) >? max_items self then Err AssertionError else Ok tt) ;;;
  (if len (buttons self) >? max_buttons self then Err AssertionError else Ok tt) ;;;
  validate_type (TLeaf ListItem) [header self] true ;;;
  validate_type (TLeaf ListItem) (items self) false.

Definition render (self : t) : result pyval :=
  validate self ;;;
  h <- call_render (header self) ;;
  its <- render_list_if (items self) ;;
  bs <- render_list_if (buttons self) ;;
  Ok (PDict (remove_none_item
    [ ("header", h);
      ("items", its);
      ("buttons", bs) ])).

Definition set_items (self : t) (items' : list pyval) : t :=
  mk (buttons self) (header self) items' (max_buttons self) (max_items self).

Definition set_buttons (self : t) (buttons' : list pyval) : t :=
  mk buttons' (header self) (items self) (max_buttons self) (max_items self).

(** [add_item( *args, **kwargs)] *)
Definition add_item (self : t) (args : list pyval) (kwargs : pydict)
  : result t :=
  if sole_instance args (TLeaf ListItem) then
    a <- args_0 args ;; Ok (set_items self (items self ++ [a])%list)
  else if (len args =? 0) && dict_mem "item" kwargs then
    i <- dict_item "item" kwargs ;; Ok (set_items self (items self ++ [i])%list)
  else
    item <- leaf_new ListItem args kwargs ;;
    Ok (set_items self (items self ++ [PLeaf ListItem item])%list).

(** [add_button], inherited from [ParentCardComponent]. *)
Definition add_button (self : t) (args : list pyval) (kwargs : pydict)
  : result t :=
  bs <- ParentCardComponent.add_button (buttons self) args kwargs ;;
  Ok (set_buttons self bs).


(** [remove_item(item)] *)
Definition remove_item (self : t) (item : pyval) : result t :=
  (if isinstance item (TLeaf ListItem) then Ok tt else Err AssertionError) ;;;
  (if negb (list_in item (items self)) then Err ValueError else Ok tt) ;;;
  l <- list_remove item (items self) ;;
  Ok (set_items self l).

End Methods.
End ListCardComponent.

Module ItemCardComponent.
Section Methods.
Context {L : LeafCode}.

Record t : Type := mk {
  buttons : list pyval;
  item_list : list pyval;
  thumbnail : pyval;
  head : pyval;
  profile : pyval;
  image_title : pyval;
  item_list_alignment : pyval;
  item_list_summary : pyval;
  title : pyval;
  description : pyval;
  button_layout : pyval
}.

Definition validate (self : t) : result unit :=
  ParentCardComponent.validate (buttons self) ;;;
  forM_ (fun item => validate_type (TLeaf Item) [item] false) (item_list self) ;;;
  validate_type (TLeaf ItemThumbnail) [thumbnail self] false ;;;
  validate_type (TLeaf ItemProfile) [profile self] false ;;;
  validate_type (TLeaf ImageTitle) [image_title self] false ;;;
  validate_type (TLeaf ItemListSummary) [item_list_summary self] false ;;;
  validate_str [head self; title self; description self; button_layout self]
               false.

(** [assert self.item_list is not None] holds of every list and is
    not written out. *)
Definition render (self : t) : result pyval :=
  validate self ;;;
  th <- render_if (thumbnail self) ;;
  pr <- render_if (profile self) ;;
  it <- render_if (image_title self) ;;
  il <- mapM call_render (item_list self) ;;
  su <- render_if (item_list_summary self) ;;
  bs <- render_list_if (buttons self) ;;
  Ok (PDict (remove_none_item
    [ ("thumbnail", th);
      ("head", if truthy (head self) then PDict [("title", head self)]
               else PNone);
      ("profile", pr);
      ("imageTitle", it);
      ("itemList", PList il);
      ("itemListAlignment", item_list_alignment self);
      ("itemListSummary", su);
      ("title", title self);
      ("description", description self);
      ("buttonLayout", button_layout self);
      ("buttons", bs) ])).

Definition set_item_list (self : t) (l : list pyval) : t :=
  mk (buttons self) l (thumbnail self) (head self) (profile self)
     (image_title self) (item_list_alignment self) (item_list_summary self)
     (title self) (description self) (button_layout self).

(** The branch of [remove_item]'s [if]/[elif] chain a call takes. *)
Inductive branch : Type :=
| PositionalItem
| PositionalIndex
| KeywordItem
| KeywordIndex
| NoBranch.

(** The conditions of [remove_item], in the order the chain tests
    them.  The first one reads [args[0]], whatever the call passed. *)
Definition remove_item_branch (args : list pyval) (kwargs : pydict)
  : result branch :=
  a <- args_0 args ;;
  if isinstance a (TLeaf Item) then Ok PositionalItem
  else if isinstance a TInt then Ok PositionalIndex
  else if dict_mem "item" kwargs then Ok KeywordItem
  else if dict_mem "index" kwargs then Ok KeywordIndex
  else Ok NoBranch.

(** [remove_item( *args, **kwargs)] *)
Definition remove_item (self : t) (args : list pyval) (kwargs : pydict)
  : result t :=
  b <- remove_item_branch args kwargs ;;
  match b with
  | PositionalItem =>
      a <- args_0 args ;;
      l <- list_remove a (item_list self) ;; Ok (set_item_list self l)
  | PositionalIndex =>
      a <- args_0 args ;;
      l <- list_pop a (item_list self) ;; Ok (set_item_list self l)
  | KeywordItem =>
      i <- dict_item "item" kwargs ;;
      l <- list_remove i (item_list self) ;; Ok (set_item_list self l)
  | KeywordIndex =>
      i <- dict_item "index" kwargs ;;
      l <- list_pop i (item_list self) ;; Ok (set_item_list self l)
  | NoBranch => Ok self
  end.


Definition append_item (self : t) (item : pyval) : t :=
  set_item_list self (item_list self ++ [item])%list.

(** [add_item( *args, **kwargs)].  It appends to [self.item_list] as
    it goes and returns nothing, so a call gives the card as the call
    leaves it together with how the call ends: a raise after an
    append leaves the appended item in the list. *)
Definition add_item (self : t) (args : list pyval) (kwargs : pydict)
  : t * result unit :=
  if len args =? 1 then
    match args_0 args with
    | Ok a =>
        if isinstance a (TLeaf Item) then (append_item self a, Ok tt)
        else if dict_mem "description" kwargs then
          match leaf_new Item args kwargs with
          | Ok item => (append_item self (PLeaf Item item), Ok tt)
          | Err e => (self, Err e)
          end
        else (self, Ok tt)
    | Err e => (self, Err e)
    end
  else
    let self' := match dict_get "item" kwargs with
                 | Some item => append_item self item
                 | None => self
                 end in
    match leaf_new Item args kwargs with
    | Ok item => (append_item self' (PLeaf Item item), Ok tt)
    | Err e => (self', Err e)
    end.

End Methods.
End ItemCardComponent.

(* ================================================================== *)
(** ** A model of the imported classes *)

Module SpecLeaves.

(** The constructor parameters of [Button] and [ListItem], as the
    [@overload] declarations of [add_button] and [add_item] in
    [card.py] list them, with the number of parameters that have no
    default. *)
Definition parameters (c : leaf_class) : option (list string * nat) :=
  match c with
  | Button =>
      Some (["label"; "action"; "web_link_url"; "message_text";
             "phone_number"; "block_id"; "extra"], 2%nat)
  | ListItem =>
      Some (["title"; "description"; "image_url"; "link"; "action";
             "block_id"; "message_text"; "extra"], 1%nat)
  | _ => None
  end.

(** Positional arguments fill the parameters from the left; more
    arguments than parameters is a [TypeError]. *)
Fixpoint bind_positional (names : list string) (args : list pyval)
  : result (pydict * list string) :=
  match args, names with
  | [], _ => Ok ([], names)
  | _ :: _, [] => Err TypeError
  | a :: args', n :: names' =>
      r <- bind_positional names' args' ;;
      Ok ((n, a) :: fst r, snd r)
  end.

Definition mem (s : string) (l : list string) : bool :=
  existsb (String.eqb s) l.

(** Python's binding of a call to a parameter list whose defaults are
    all [None]: a keyword has to name a parameter not yet filled, and
    every parameter without default has to be filled. *)
Definition bind_call (names : list string) (required : nat)
  (args : list pyval) (kwargs : pydict) : result pydict :=
  r <- bind_positional names args ;;
  forM_ (fun kv => if mem (fst kv) (snd r) then Ok tt else Err TypeError)
        kwargs ;;;
  forM_ (fun n => if mem n (map fst (fst r)) || dict_mem n kwargs
                  then Ok tt else Err TypeError)
        (firstn required names) ;;;
  Ok (fst r ++ map (fun n => (n, match dict_get n kwargs with
                                 | Some v => v
                                 | None => PNone
                                 end)) (snd r))%list.

(** Modelled from the spec: the constructors of the classes of
    [common.py] and [itemcard.py], which are not among the sources.
    Section 4.2: a leaf's constructor accepts its documented fields
    with optional defaults.  [Button] and [ListItem] take the
    parameters declared in [card.py]; the parameter lists of the other
    classes are declared nowhere in the sources, so they are given by
    keyword only. *)
Definition new (c : leaf_class) (args : list pyval) (kwargs : pydict)
  : result pydict :=
  match parameters c with
  | Some (names, required) => bind_call names required args kwargs
  | None => match args with
            | [] => Ok kwargs
            | _ => Err TypeError
            end
  end.

(** Modelled from the spec: the renaming of a leaf's fields to the
    wire names, sections 4.2 and 6 ([web_link_url] to [webLinkUrl],
    [image_url] to [imageUrl], and so on); the table itself is in the
    absent [common.py]. *)
Definition wire_name (attr : string) : string :=
  if (attr =? "web_link_url")%string then "webLinkUrl"
  else if (attr =? "message_text")%string then "messageText"
  else if (attr =? "phone_number")%string then "phoneNumber"
  else if (attr =? "block_id")%string then "blockId"
  else if (attr =? "image_url")%string then "imageUrl"
  else attr.

Definition wire (attrs : pydict) : pydict :=
  remove_none_item (map (fun kv => (wire_name (fst kv), snd kv)) attrs).

Definition attr (name : string) (attrs : pydict) : pyval :=
  match dict_get name attrs with
  | Some v => v
  | None => PNone
  end.

(** Modelled from the spec: the action rule that [Button] and
    [ListItem] share in the absent [common.py], section 4.2: the action
    is one of six tokens, and the field the action selects has to be
    present. *)
Definition validate_action (attrs : pydict) : result unit :=
  match attr "action" attrs with
  | PStr a =>
      if (a =? "webLink")%string then validate_str [attr "web_link_url" attrs] true
      else if (a =? "message")%string then validate_str [attr "message_text" attrs] true
      else if (a =? "phone")%string then validate_str [attr "phone_number" attrs] true
      else if (a =? "block")%string then validate_str [attr "block_id" attrs] true
      else if (a =? "share")%string || (a =? "operator")%string then Ok tt
      else Err InvalidActionError
  | _ => Err InvalidActionError
  end.

(** Modelled from the spec: the [validate] methods of the absent leaf
    classes, section 4.2: per-field type and enumeration checks.  The
    label of a [Button] and the title of a [ListItem] are required
    strings; a [Button] has an action, a [ListItem] may have one; the
    checks of the other classes are not described and left out. *)
Definition validate (c : leaf_class) (attrs : pydict) : result unit :=
  match c with
  | Button =>
      validate_str [attr "label" attrs] true ;;;
      validate_action attrs
  | ListItem =>
      validate_str [attr "title" attrs] true ;;;
      validate_str [attr "description" attrs; attr "image_url" attrs] false ;;;
      if is_none (attr "action" attrs) then Ok tt else validate_action attrs
  | _ => Ok tt
  end.

(** Modelled from the spec: the [render] methods of the absent leaf
    classes, section 4.2: validate, then return a mapping with the
    fields under their wire names and the absent optional fields
    omitted.  A leaf held in a field (the link of a thumbnail or of a
    list item) is rendered the same way. *)
Definition render (c : leaf_class) (attrs : pydict) : result pyval :=
  validate c attrs ;;;
  Ok (PDict (wire (map (fun kv => (fst kv,
                          match snd kv with
                          | PLeaf _ inner => PDict (wire inner)
                          | v => v
                          end)) attrs))).

(** Modelled from the spec: equality of values, section 3 (c): the
    identity of a sub-component is irrelevant, two objects of the same
    class with equal fields are equal. *)
Fixpoint eqb (a b : pyval) : bool :=
  let fix eqb_list (l m : list pyval) : bool :=
    match l, m with
    | [], [] => true
    | x :: l', y :: m' => eqb x y && eqb_list l' m'
    | _, _ => false
    end in
  let fix eqb_dict (l m : list (string * pyval)) : bool :=
    match l, m with
    | [], [] => true
    | (k, x) :: l', (k', y) :: m' =>
        (k =? k')%string && eqb x y && eqb_dict l' m'
    | _, _ => false
    end in
  match a, b with
  | PNone, PNone => true
  | PBool x, PBool y => Bool.eqb x y
  | PInt x, PInt y => x =? y
  | PStr x, PStr y => (x =? y)%string
  | PList l, PList m => eqb_list l m
  | PDict l, PDict m => eqb_dict l m
  | PContextParam v r, PContextParam v' r' => eqb v v' && eqb r r'
  | PLeaf c l, PLeaf c' m => leaf_class_eqb c c' && eqb_dict l m
  | _, _ => false
  end.

Definition code : LeafCode :=
  {| leaf_new := new; leaf_render := render; py_eq := eqb |}.

End SpecLeaves.

(* ================================================================== *)
(** ** Vocabulary of the properties *)

(** A call raises. *)
Definition fails {A : Type} (r : result A) : Prop := exists e, r = Err e.

(** No key of the mapping is bound to [None]. *)
Definition no_none_value (d : pydict) : Prop :=
  Forall (fun kv => snd kv <> PNone) d.

(** The URL shape of the specification, section 6:
    [https://<host>/v2/bots/{botId}/talk]. *)
Definition url_shape (host botId : string) : string :=
  "https://" ++ host ++ "/v2/bots/" ++ botId ++ "/talk".

(** The authorization value of the specification, section 6: the
    scheme token in front of the key, unless the key has it already. *)
Definition authorization (key : string) : string :=
  if startswith key "KakaoAK " then key else "KakaoAK " ++ key.

(** A field typed [Optional[Dict]]: a mapping, or absent. *)
Definition optional_dict (v : pyval) : bool :=
  is_none v || isinstance v TDict.

(** The [params] of a context whose entries are all [ContextParam]s
    with string value and resolved value, from triples (key, value,
    resolved value) ... *)
Definition context_params (ps : list (string * (string * string))) : pyval :=
  PDict (map (fun p => (fst p, PContextParam (PStr (fst (snd p)))
                                             (PStr (snd (snd p))))) ps).

(** ... and what the specification says they render to: each key bound
    to the value alone, and no [params] key at all when there is none. *)
Definition rendered_params (ps : list (string * (string * string))) : pyval :=
  match ps with
  | [] => PNone
  | _ => PDict (map (fun p => (fst p, PStr (fst (snd p)))) ps)
  end.

(** The five card classes, as one type: an object of any of them. *)
Inductive card : Type :=
| TextCard (c : TextCardComponent.t)
| BasicCard (c : BasicCardComponent.t)
| CommerceCard (c : CommerceCardComponent.t)
| ListCard (c : ListCardComponent.t)
| ItemCard (c : ItemCardComponent.t).

(** [c.validate()] and [c.render()], dispatched on the class of [c]. *)
Definition card_validate {L : LeafCode} (c : card) : result unit :=
  match c with
  | TextCard c => TextCardComponent.validate c
  | BasicCard c => BasicCardComponent.validate c
  | CommerceCard c => CommerceCardComponent.validate c
  | ListCard c => ListCardComponent.validate c
  | ItemCard c => ItemCardComponent.validate c
  end.

Definition card_render {L : LeafCode} (c : card) : result pyval :=
  match c with
  | TextCard c => TextCardComponent.render c
  | BasicCard c => BasicCardComponent.render c
  | CommerceCard c => CommerceCardComponent.render c
  | ListCard c => ListCardComponent.render c
  | ItemCard c => ItemCardComponent.render c
  end.

(** Every entry of the list is an instance of the class. *)
Definition all_instances (c : leaf_class) (l : list pyval) : bool :=
  forallb (fun v => isinstance v (TLeaf c)) l.

(** The fields of a list card hold what their annotations say: buttons
    are [Button]s, the header and the items are [ListItem]s. *)
Definition well_typed (self : ListCardComponent.t) : bool :=
  all_instances Button (ListCardComponent.buttons self) &&
  isinstance (ListCardComponent.header self) (TLeaf ListItem) &&
  all_instances ListItem (ListCardComponent.items self).

(** The arguments of a two-mode call are raw constructor fields: not a
    lone positional instance of the class, and not the lone keyword
    that passes a finished object. *)
Definition raw_fields (c : leaf_class) (keyword : string)
  (args : list pyval) (kwargs : pydict) : bool :=
  negb (sole_instance args (TLeaf c)) &&
  negb ((len args =? 0) && dict_mem keyword kwargs).

(** The value a mapping holds under a key, or a default. *)
Definition field (d : pydict) (key : string) (default : pyval) : pyval :=
  match dict_get key d with
  | Some v => v
  | None => default
  end.

(** The [params] of a context as a payload carries them: each key
    bound to a mapping with the value and the resolved value, from
    triples (key, value, resolved value). *)
Definition inbound_params (ps : list (string * (string * string))) : pyval :=
  PDict (map (fun p => (fst p, PDict [ ("value", PStr (fst (snd p)));
                                       ("resolvedValue", PStr (snd (snd p))) ]))
             ps).

(** The entry of a rendered mapping for a field: none when the field
    is [None]. *)
Definition entry (v : pyval) : option pyval :=
  if is_none v then None else Some v.

(* ================================================================== *)
(** ** Example objects *)

Module Examples.

(** [BasicCardComponent(thumbnail=Thumbnail(image_url=...), title="title")] *)
Definition basic_card : BasicCardComponent.t :=
  BasicCardComponent.mk []
    (PLeaf Thumbnail [("image_url", PStr "https://example.com/image.jpg")])
    (PStr "title") PNone (PBool false).

Definition list_item (title : string) : pyval :=
  PLeaf ListItem [("title", PStr title)].

(** A list card with the default caps, a header and no item yet. *)
Definition empty_list_card : ListCardComponent.t :=
  ListCardComponent.mk [] (list_item "header") [] 2 5.

(** The same card with five items. *)
Definition full_list_card : ListCardComponent.t :=
  ListCardComponent.mk [] (list_item "header")
    [list_item "1"; list_item "2"; list_item "3"; list_item "4"; list_item "5"]
    2 5.

(** The attributes of [ListItem("title", description="d")]. *)
Definition item_fields : pydict :=
  [ ("title", PStr "title"); ("description", PStr "d"); ("image_url", PNone);
    ("link", PNone); ("action", PNone); ("block_id", PNone);
    ("message_text", PNone); ("extra", PNone) ].

(** The attributes of [Button("label", "message", message_text="hi")]. *)
Definition button_fields : pydict :=
  [ ("label", PStr "label"); ("action", PStr "message");
    ("web_link_url", PNone); ("message_text", PStr "hi");
    ("phone_number", PNone); ("block_id", PNone); ("extra", PNone) ].

Definition item_card : ItemCardComponent.t :=
  ItemCardComponent.mk [] [PLeaf Item [("title", PStr "t"); ("description", PStr "d")]]
    PNone PNone PNone PNone PNone PNone PNone PNone PNone.

(** A notification with as many valid users as the default cap. *)
Definition event_api : EventAPI.t :=
  EventAPI.mk (PStr "bot") (PStr "key") (PStr "event")
    (repeat (EventUser.mk (PStr "appUserId") (PStr "u") PNone) 100)
    (PDict []) (PDict []) PNone false 100.

(** [CommerceCardComponent(price=10000, thumbnails=[Thumbnail(...)],
    discount_price=9000)] *)
Definition commerce_card : CommerceCardComponent.t :=
  CommerceCardComponent.mk [] (PInt 10000)
    [PLeaf Thumbnail [("image_url", PStr "https://example.com/image.jpg")]]
    PNone PNone PNone PNone PNone (PInt 9000) PNone.

End Examples.

(* ================================================================== *)
(** ** General facts *)

Lemma bind_Ok {A B : Type} (m : result A) (k : A -> result B) (b : B) :
  bind m k = Ok b -> exists a, m = Ok a /\ k a = Ok b.
Proof.
  destruct m as [a|e]; simpl; intro H.
  - exists a. split; [reflexivity | exact H].
  - discriminate H.
Qed.

Lemma Ok_inj {A : Type} (a b : A) : Ok a = Ok b -> a = b.
Proof. intro H. inversion H. reflexivity. Qed.

Lemma bind_Err {A B : Type} (m : result A) (k : A -> result B) (e : error) :
  m = Err e -> bind m k = Err e.
Proof. intros ->. reflexivity. Qed.

(** Take a successful chain of binds apart, one step at a time. *)
Ltac invert_binds :=
  repeat match goal with
         | H : bind _ _ = Ok _ |- _ =>
             let a := fresh "a" in
             let Ha := fresh "Ha" in
             apply bind_Ok in H; destruct H as [a [Ha H]]; cbv beta in H
         end.

Lemma mapM_map_Ok {A B : Type} (g : A -> B) (f : A -> result B) (l : list A) :
  (forall x, In x l -> f x = Ok (g x)) -> mapM f l = Ok (map g l).
Proof.
  induction l as [|x l IH]; simpl; intro H.
  - reflexivity.
  - rewrite (H x (or_introl eq_refl)). simpl.
    rewrite IH by (intros y Hy; apply H; right; exact Hy).
    reflexivity.
Qed.

Lemma mapM_total {A B : Type} (f : A -> result B) (l : list A) :
  (forall x, In x l -> exists y, f x = Ok y) -> exists ys, mapM f l = Ok ys.
Proof.
  induction l as [|x l IH]; simpl; intro H.
  - exists []. reflexivity.
  - destruct (H x (or_introl eq_refl)) as [y Hy].
    destruct IH as [ys Hys]; [intros z Hz; apply H; right; exact Hz|].
    exists (y :: ys). rewrite Hy. simpl. rewrite Hys. reflexivity.
Qed.

Lemma forM_all_Ok {A : Type} (f : A -> result unit) (l : list A) :
  (forall x, In x l -> f x = Ok tt) -> forM_ f l = Ok tt.
Proof.
  induction l as [|x l IH]; simpl; intro H.
  - reflexivity.
  - rewrite (H x (or_introl eq_refl)). simpl.
    apply IH. intros y Hy. apply H. right. exact Hy.
Qed.

Lemma forM_some_Err {A : Type} (f : A -> result unit) (l : list A) (x : A)
  (e : error) :
  In x l -> f x = Err e -> fails (forM_ f l).
Proof.
  induction l as [|y l IH]; simpl; intros Hin Hx.
  - contradiction.
  - destruct (f y) as [[]|e'] eqn:Hy; simpl.
    + destruct Hin as [->|Hin].
      * rewrite Hx in Hy. discriminate Hy.
      * apply IH; assumption.
    + exists e'. reflexivity.
Qed.

Lemma len_nil {A : Type} : len (@nil A) = 0.
Proof. reflexivity. Qed.

Lemma len_cons {A : Type} (x : A) (l : list A) : len (x :: l) = 1 + len l.
Proof. unfold len. simpl length. lia. Qed.

Lemma len_nonneg {A : Type} (l : list A) : 0 <= len l.
Proof. unfold len. lia. Qed.

(** *** Strings *)

Lemma endswith_eq (s p : string) :
  endswith s p =
  if (s =? p)%string then true
  else match s with
       | EmptyString => false
       | String _ s' => endswith s' p
       end.
Proof. destruct s; reflexivity. Qed.

Lemma endswith_app (s p : string) : endswith (s ++ p) p = true.
Proof.
  induction s as [|c s IH].
  - change ("" ++ p) with p. rewrite endswith_eq, String.eqb_refl. reflexivity.
  - change (String c s ++ p) with (String c (s ++ p)).
    rewrite endswith_eq, IH.
    destruct (String c (s ++ p) =? p)%string; reflexivity.
Qed.

Lemma drop_last_app (s : string) (c : ascii) :
  drop_last (s ++ String c EmptyString) = s.
Proof.
  induction s as [|a s IH].
  - reflexivity.
  - simpl. rewrite IH. destruct s; reflexivity.
Qed.

Lemma endswith_marker (s : string) :
  endswith s "!" = true -> s = drop_last s ++ "!".
Proof.
  induction s as [|a s IH]; rewrite endswith_eq.
  - discriminate.
  - destruct (String a s =? "!")%string eqn:E.
    + intros _. apply String.eqb_eq in E. rewrite E. reflexivity.
    + intro H. specialize (IH H).
      destruct s as [|b s'].
      * discriminate H.
      * change (String a (String b s') = String a (drop_last (String b s') ++ "!")).
        f_equal. exact IH.
Qed.

Lemma startswith_app (p s : string) : startswith (p ++ s) p = true.
Proof.
  unfold startswith.
  induction p as [|c p IH]; simpl.
  - destruct s; reflexivity.
  - destruct (ascii_dec c c) as [_|n]; [exact IH | contradiction n; reflexivity].
Qed.

(** *** remove_none_item *)

Lemma remove_none_item_In (k : string) (v : pyval) (base : pydict) :
  In (k, v) (remove_none_item base) <-> In (k, v) base /\ v <> PNone.
Proof.
  induction base as [|[k' v'] base IH]; simpl.
  - tauto.
  - destruct (is_none v') eqn:E.
    + destruct v'; try discriminate E.
      rewrite IH. split.
      * intros [H1 H2]. tauto.
      * intros [[H|H] H2]; [inversion H; subst; contradiction | tauto].
    + simpl. rewrite IH. split.
      * intros [H|[H1 H2]]; [|tauto].
        inversion H; subst. split; [left; reflexivity|].
        intros ->. discriminate E.
      * intros [[H|H] H2]; tauto.
Qed.

Lemma remove_none_item_no_none (base : pydict) :
  no_none_value (remove_none_item base).
Proof.
  apply Forall_forall. intros [k v] H.
  apply remove_none_item_In in H. exact (proj2 H).
Qed.

Lemma dict_get_In (k : string) (v : pyval) (d : pydict) :
  dict_get k d = Some v -> In (k, v) d.
Proof.
  induction d as [|[k' v'] d IH]; simpl.
  - discriminate.
  - destruct (k' =? k)%string eqn:E.
    + intro H. inversion H; subst. apply String.eqb_eq in E. subst. left. reflexivity.
    + intro H. right. apply IH. exact H.
Qed.

(** A key the mapping binds only to [None] is not a key of the result. *)
Lemma remove_none_item_absent (k : string) (base : pydict) :
  (forall v, In (k, v) base -> v = PNone) ->
  dict_mem k (remove_none_item base) = false.
Proof.
  intro H. unfold dict_mem.
  destruct (dict_get k (remove_none_item base)) as [v|] eqn:E; [|reflexivity].
  apply dict_get_In, remove_none_item_In in E. destruct E as [E1 E2].
  elim E2. apply H. exact E1.
Qed.

(* ================================================================== *)
(** ** Validation before rendering *)

(** The [render] methods that start with [self.validate()] raise what
    [validate] raises. *)
Lemma ContextParam_render_validates (value resolved_value : pyval) (e : error) :
  ContextParam.validate value resolved_value = Err e ->
  ContextParam.render value resolved_value = Err e.
Proof. intro H. unfold ContextParam.render. rewrite H. reflexivity. Qed.

Lemma EventAPI_render_validates (self : EventAPI.t) (e : error) :
  EventAPI.validate self = Err e -> EventAPI.render self = Err e.
Proof. intro H. unfold EventAPI.render. rewrite H. reflexivity. Qed.

Lemma CheckEventAPI_render_validates (self : CheckEventAPI.t) (e : error) :
  CheckEventAPI.validate self = Err e -> CheckEventAPI.render self = Err e.
Proof. intro H. unfold CheckEventAPI.render. rewrite H. reflexivity. Qed.

Lemma card_render_validates {L : LeafCode} (c : card) (e : error) :
  card_validate c = Err e -> card_render c = Err e.
Proof.
  destruct c as [c|c|c|c|c]; simpl; intro H;
    [ unfold TextCardComponent.render
    | unfold BasicCardComponent.render
    | unfold CommerceCardComponent.render
    | unfold ListCardComponent.render
    | unfold ItemCardComponent.render ];
    rewrite H; reflexivity.
Qed.

(** [Context.render] has no such call: with no parameters to render it
    returns a mapping whatever the fields hold. *)
Lemma Context_render_total (name lifespan ttl : pyval) :
  Context.render (Context.init name lifespan ttl PNone) =
  Ok (PDict (remove_none_item
               [("name", name); ("lifeSpan", lifespan); ("ttl", ttl)])).
Proof.
  unfold Context.render, Context.init. simpl.
  destruct (is_none name), (is_none lifespan), (is_none ttl); reflexivity.
Qed.

(** C1 (what the code does where the claim fails).  The claim is that
    [render()] of every component first validates, so that rendering an
    invalid object raises what [validate()] raises, in particular for a
    [Context] whose name is not a string.  [Context.render] does not
    validate: for a name that is present and not a string,
    [validate()] raises [InvalidTypeError] and [render()] returns the
    mapping with that name in it. *)
Theorem Context_render_skips_validate (name lifespan ttl : pyval) :
  is_none name = false ->
  isinstance name TStr = false ->
  Context.validate (Context.init name lifespan ttl PNone)
    = Err InvalidTypeError /\
  Context.render (Context.init name lifespan ttl PNone)
    = Ok (PDict (remove_none_item
                   [("name", name); ("lifeSpan", lifespan); ("ttl", ttl)])) /\
  dict_get "name" (remove_none_item
                     [("name", name); ("lifeSpan", lifespan); ("ttl", ttl)])
    = Some name.
Proof.
  intros Hnone Hstr. split; [|split].
  - destruct name; try discriminate Hnone; try discriminate Hstr; reflexivity.
  - apply Context_render_total.
  - simpl. rewrite Hnone. reflexivity.
Qed.

Lemma Context_render_skips_validate_witness :
  Context.validate (Context.init (PInt 5) (PInt 1) PNone PNone)
    = Err InvalidTypeError /\
  Context.render (Context.init (PInt 5) (PInt 1) PNone PNone)
    = Ok (PDict [("name", PInt 5); ("lifeSpan", PInt 1)]) /\
  dict_get "name" [("name", PInt 5); ("lifeSpan", PInt 1)] = Some (PInt 5).
Proof.
  exact (Context_render_skips_validate (PInt 5) (PInt 1) PNone eq_refl eq_refl).
Defined.

(** [EventUser.render] does not validate either: a user whose id type
    is not one of the three allowed ones fails [validate()] and still
    renders. *)
Lemma EventUser_render_skips_validate :
  let u := EventUser.mk (PStr "email") (PStr "u1") PNone in
  EventUser.validate u = Err AssertionError /\
  EventUser.render u = PDict [("type", PStr "email"); ("id", PStr "u1")].
Proof. split; reflexivity. Qed.

(* ================================================================== *)
(** ** The event notification URL *)

(** C2, as the claim states it, fails: for the bot id [bot!] on the
    development channel the stored id is [bot], and the URL is not of
    the shape [https://<host>/v2/bots/bot/talk] for any host. *)
Lemma EventAPI_devchannel_url_not_of_shape :
  exists self,
    EventAPI.init (PStr "bot!") (PStr "key") (PStr "event") None
                  PNone PNone PNone true 100 = Ok self /\
    EventAPI.bot_id self = PStr "bot" /\
    forall host, EventAPI.url self <> Some (url_shape host "bot").
Proof.
  eexists. split; [reflexivity|]. split; [reflexivity|].
  intros host H. unfold url_shape in H. simpl in H. injection H as H.
  pose proof (endswith_app host "/v2/bots/bot/talk") as E.
  rewrite <- H in E. vm_compute in E. discriminate E.
Qed.

Lemma string_app_assoc (a b c : string) : (a ++ b) ++ c = a ++ (b ++ c).
Proof.
  induction a as [|x a IH]; [reflexivity|].
  change ((String x a ++ b) ++ c) with (String x ((a ++ b) ++ c)).
  rewrite IH. reflexivity.
Qed.

(** C2 (amended).  For an [EventAPI] constructed on the development
    channel with a bot id that ends in the marker [!], the marker is
    stripped from the stored id, and the URL is the one of the
    development host, [https://dev-bot-api.kakao.com/v2/bots/.../talk],
    with a path segment that carries the stored id followed by the
    marker again. *)
Theorem EventAPI_devchannel_url (b : string) (api_key event : pyval)
  (users : option (list EventUser.t)) (data params option : pyval)
  (max_user : Z) :
  endswith b "!" = true ->
  exists self,
    EventAPI.init (PStr b) api_key event users data params option true max_user
      = Ok self /\
    EventAPI.bot_id self = PStr (drop_last b) /\
    b = drop_last b ++ "!" /\
    exists before after,
      EventAPI.url self =
        Some ("https://dev-bot-api.kakao.com/v2/bots/"
              ++ (before ++ (drop_last b ++ "!") ++ after) ++ "/talk").
Proof.
  intro H. unfold EventAPI.init. rewrite H. cbn [bind].
  eexists. split; [reflexivity|]. split; [reflexivity|].
  split; [apply endswith_marker; exact H|].
  exists "'", "'". unfold EventAPI.url.
  cbn [EventAPI.bot_id EventAPI.is_devchannel]. f_equal.
  change ("https://dev-bot-api.kakao.com/v2/bots/'" ++ drop_last b ++ "!'/talk")
    with ("https://dev-bot-api.kakao.com/v2/bots/"
          ++ "'" ++ drop_last b ++ "!" ++ "'" ++ "/talk").
  rewrite !string_app_assoc. reflexivity.
Qed.

Lemma EventAPI_devchannel_url_witness :
  exists self,
    EventAPI.init (PStr "bot!") (PStr "key") (PStr "event") None
                  PNone PNone PNone true 100 = Ok self /\
    EventAPI.bot_id self = PStr "bot" /\
    "bot!" = "bot" ++ "!" /\
    exists before after,
      EventAPI.url self =
        Some ("https://dev-bot-api.kakao.com/v2/bots/"
              ++ (before ++ ("bot" ++ "!") ++ after) ++ "/talk").
Proof.
  exact (EventAPI_devchannel_url "bot!" (PStr "key") (PStr "event") None
           PNone PNone PNone 100 eq_refl).
Defined.

(* ================================================================== *)
(** ** Context parameters *)

Lemma render_context_params (ps : list (string * (string * string))) :
  Context.render_params (Context.params
      (Context.init PNone PNone PNone (context_params ps)))
  = Ok (rendered_params ps).
Proof.
  destruct ps as [|p ps]; [reflexivity|].
  assert (Ht : truthy (context_params (p :: ps)) = true) by reflexivity.
  assert (Hr : rendered_params (p :: ps)
               = PDict (map (fun q => (fst q, PStr (fst (snd q)))) (p :: ps)))
    by reflexivity.
  rewrite Hr. clear Hr. revert Ht. generalize (p :: ps). intros l Ht.
  unfold Context.init. rewrite Ht. cbn [Context.params].
  unfold Context.render_params. rewrite Ht. unfold context_params.
  rewrite mapM_map_Ok
    with (g := fun kv : string * pyval =>
                 (fst kv, match snd kv with
                          | PContextParam value _ => value
                          | v => v
                          end)).
  - cbn [bind]. rewrite map_map. reflexivity.
  - intros [k v] Hin. apply in_map_iff in Hin. destruct Hin as [q [Hq _]].
    inversion Hq; subst. reflexivity.
Qed.

(** C8.  A [ContextParam] with string value and resolved value renders
    to exactly its value.  A [Context] whose parameters are such
    objects renders its [params] as the mapping from each key to the
    value alone (and has no [params] key when there are none): the
    resolved values occur nowhere in what is rendered, which is
    the same whatever they are. *)
Theorem ContextParam_renders_value_only :
  (forall value resolved_value : string,
     ContextParam.render (PStr value) (PStr resolved_value) = Ok (PStr value)) /\
  (forall (name lifespan ttl : pyval) (ps : list (string * (string * string))),
     Context.render (Context.init name lifespan ttl (context_params ps))
     = Ok (PDict (remove_none_item
                    [ ("name", name); ("lifeSpan", lifespan); ("ttl", ttl);
                      ("params", rendered_params ps) ]))) /\
  (forall (ps : list (string * (string * string))) (k : string) (v : pyval),
     (dict_get k (map (fun p => (fst p, PStr (fst (snd p)))) ps) = Some v <->
      exists r, dict_get k
                  (map (fun p => (fst p, PContextParam (PStr (fst (snd p)))
                                                       (PStr (snd (snd p))))) ps)
                = Some (PContextParam v (PStr r)))).
Proof.
  split; [|split].
  - intros value resolved_value. reflexivity.
  - intros name lifespan ttl ps.
    pose proof (render_context_params ps) as H.
    unfold Context.render.
    change (Context.params (Context.init name lifespan ttl (context_params ps)))
      with (Context.params (Context.init PNone PNone PNone (context_params ps))).
    rewrite H. reflexivity.
  - intros ps k v. induction ps as [|[k' [v' r']] ps IH]; simpl.
    + split; [discriminate | intros [r Hr]; discriminate Hr].
    + destruct (k' =? k)%string.
      * split.
        -- intro H. inversion H; subst. exists r'. reflexivity.
        -- intros [r Hr]. inversion Hr; subst. reflexivity.
      * exact IH.
Qed.

(* ================================================================== *)
(** ** The authorization header *)

Lemma authorization_startswith (key : string) :
  startswith (authorization key) "KakaoAK " = true.
Proof.
  unfold authorization.
  destruct (startswith key "KakaoAK ") eqn:E; [exact E|].
  apply startswith_app.
Qed.

Lemma authorization_idempotent (key : string) :
  authorization (authorization key) = authorization key.
Proof.
  unfold authorization at 1. rewrite authorization_startswith. reflexivity.
Qed.

Lemma EventAPI_headers_eq (self : EventAPI.t) (key : string) :
  EventAPI.api_key self = PStr key ->
  EventAPI.headers self =
  Ok ([ ("Content-Type", PStr "application/json");
        ("Authorization", PStr (authorization key)) ],
      EventAPI.mk (EventAPI.bot_id self) (PStr (authorization key))
        (EventAPI.event self) (EventAPI.users self) (EventAPI.data self)
        (EventAPI.params self) (EventAPI.option self)
        (EventAPI.is_devchannel self) (EventAPI.max_user self)).
Proof.
  intro H. unfold EventAPI.headers, authorization. rewrite H.
  destruct (startswith key "KakaoAK "); reflexivity.
Qed.

Lemma CheckEventAPI_render_eq (task key : string) :
  CheckEventAPI.render (CheckEventAPI.mk (PStr task) (PStr key)) =
  Ok [ ("Authorization", PStr (authorization key));
       ("Content-Type", PStr "application/json") ].
Proof.
  unfold CheckEventAPI.render, authorization.
  cbn [CheckEventAPI.api_key].
  destruct (startswith key "KakaoAK "); reflexivity.
Qed.

(** C9.  The [Authorization] value is the key itself when the key
    already starts with the scheme token [KakaoAK ], and the token
    followed by the key otherwise.  [EventAPI.headers] stores that
    value back as the key, and asking for the headers a second time
    gives the same headers; [CheckEventAPI.render] and
    [CheckEventAPI.headers] give the same value, and give it again for
    an object that holds the already prefixed key. *)
Theorem Authorization_prefixed_once (self : EventAPI.t) (key task : string) :
  EventAPI.api_key self = PStr key ->
  (startswith key "KakaoAK " = true -> authorization key = key) /\
  (startswith key "KakaoAK " = false -> authorization key = "KakaoAK " ++ key) /\
  (exists hs self',
     EventAPI.headers self = Ok (hs, self') /\
     dict_get "Authorization" hs = Some (PStr (authorization key)) /\
     EventAPI.api_key self' = PStr (authorization key) /\
     EventAPI.headers self' = Ok (hs, self')) /\
  (exists hs,
     CheckEventAPI.render (CheckEventAPI.mk (PStr task) (PStr key)) = Ok hs /\
     CheckEventAPI.headers (CheckEventAPI.mk (PStr task) (PStr key)) = Ok hs /\
     dict_get "Authorization" hs = Some (PStr (authorization key)) /\
     CheckEventAPI.render
       (CheckEventAPI.mk (PStr task) (PStr (authorization key))) = Ok hs).
Proof.
  intro H. split; [|split; [|split]].
  - unfold authorization. intros ->. reflexivity.
  - unfold authorization. intros ->. reflexivity.
  - eexists. eexists. split; [apply EventAPI_headers_eq; exact H|].
    split; [reflexivity|]. split; [reflexivity|].
    rewrite EventAPI_headers_eq with (key := authorization key) by reflexivity.
    rewrite authorization_idempotent. reflexivity.
  - eexists. split; [apply CheckEventAPI_render_eq|].
    split; [apply CheckEventAPI_render_eq|]. split; [reflexivity|].
    rewrite CheckEventAPI_render_eq, authorization_idempotent. reflexivity.
Qed.

Lemma Authorization_prefixed_once_witness :
  exists hs self',
    EventAPI.headers
      (EventAPI.mk (PStr "bot") (PStr "abc") (PStr "event") [] (PDict [])
                   (PDict []) PNone false 100) = Ok (hs, self') /\
    dict_get "Authorization" hs = Some (PStr "KakaoAK abc") /\
    EventAPI.api_key self' = PStr "KakaoAK abc" /\
    EventAPI.headers self' = Ok (hs, self').
Proof.
  exact (proj1 (proj2 (proj2
           (Authorization_prefixed_once
              (EventAPI.mk (PStr "bot") (PStr "abc") (PStr "event") []
                           (PDict []) (PDict []) PNone false 100)
              "abc" "task" eq_refl)))).
Defined.

(* ================================================================== *)
(** ** The number of users of an event notification *)

Lemma EventAPI_validate_strings (self : EventAPI.t) (b k e : string) :
  EventAPI.bot_id self = PStr b ->
  EventAPI.api_key self = PStr k ->
  EventAPI.event self = PStr e ->
  EventAPI.validate self =
  ((match EventAPI.users self with
    | [] => Err AssertionError
    | _ => Ok tt
    end) ;;;
   (if len (EventAPI.users self) >? EventAPI.max_user self
    then Err AssertionError else Ok tt) ;;;
   forM_ EventUser.validate (EventAPI.users self) ;;;
   validate_type TDict
     [EventAPI.params self; EventAPI.option self; EventAPI.data self] false).
Proof.
  intros Hb Hk He. unfold EventAPI.validate. rewrite Hb, Hk, He. reflexivity.
Qed.

Lemma validate_optional_dicts (l : list pyval) :
  forallb optional_dict l = true -> validate_type TDict l false = Ok tt.
Proof.
  intro H. unfold validate_type. apply forM_all_Ok. intros v Hv.
  rewrite forallb_forall in H. specialize (H v Hv).
  unfold optional_dict in H. unfold validate_one.
  destruct (is_none v); [reflexivity|]. cbn [orb] in H. rewrite H. reflexivity.
Qed.

(** C7.  For an [EventAPI] whose bot id, key and event are strings:
    [validate()] raises when there is no user, and when there are more
    users than [max_user]; it accepts when the users are exactly
    [max_user] valid ones, there being at least one, and [params],
    [option] and [data] are each a mapping or absent; and it raises
    when some user in the list fails its own validation. *)
Theorem EventAPI_user_count (self : EventAPI.t) (b k e : string) :
  EventAPI.bot_id self = PStr b ->
  EventAPI.api_key self = PStr k ->
  EventAPI.event self = PStr e ->
  (EventAPI.users self = [] -> EventAPI.validate self = Err AssertionError) /\
  (len (EventAPI.users self) > EventAPI.max_user self ->
   EventAPI.validate self = Err AssertionError) /\
  (len (EventAPI.users self) = EventAPI.max_user self ->
   1 <= EventAPI.max_user self ->
   (forall u, In u (EventAPI.users self) -> EventUser.validate u = Ok tt) ->
   forallb optional_dict
     [EventAPI.params self; EventAPI.option self; EventAPI.data self] = true ->
   EventAPI.validate self = Ok tt) /\
  (forall u e', In u (EventAPI.users self) -> EventUser.validate u = Err e' ->
   fails (EventAPI.validate self)).
Proof.
  intros Hb Hk He.
  rewrite (EventAPI_validate_strings self b k e Hb Hk He).
  split; [|split; [|split]].
  - intros ->. reflexivity.
  - intro Hgt. destruct (EventAPI.users self) as [|u us] eqn:Hus.
    + reflexivity.
    + cbn [bind]. apply Z.gtb_gt in Hgt. rewrite Hgt. reflexivity.
  - intros Hlen Hmax Husers Hdicts.
    destruct (EventAPI.users self) as [|u us] eqn:Hus.
    + rewrite len_nil in Hlen. lia.
    + cbn [bind].
      replace (len (u :: us) >? EventAPI.max_user self) with false
        by (symmetry; rewrite Z.gtb_ltb; apply Z.ltb_ge; lia).
      cbn [bind]. rewrite forM_all_Ok by exact Husers. cbn [bind].
      apply validate_optional_dicts. exact Hdicts.
  - intros u e' Hin Hu.
    destruct (EventAPI.users self) as [|u0 us] eqn:Hus; [contradiction|].
    cbn [bind].
    destruct (len (u0 :: us) >? EventAPI.max_user self);
      [exists AssertionError; reflexivity|].
    cbn [bind].
    destruct (forM_some_Err EventUser.validate (u0 :: us) u e' Hin Hu) as [x Hx].
    exists x. rewrite Hx. reflexivity.
Qed.

Lemma EventAPI_user_count_witness :
  EventAPI.validate Examples.event_api = Ok tt.
Proof.
  refine (proj1 (proj2 (proj2
            (EventAPI_user_count Examples.event_api "bot" "key" "event"
               eq_refl eq_refl eq_refl))) _ _ _ _).
  - reflexivity.
  - vm_compute. discriminate.
  - intros u Hin. apply repeat_spec in Hin. rewrite Hin. reflexivity.
  - reflexivity.
Defined.

(** The same for an object as the constructor builds it from three
    strings and a list of users, with [data], [params] and [option]
    left at their defaults. *)
Lemma EventAPI_constructed_validates (b k e : string)
  (users : list EventUser.t) (is_devchannel : bool) (max_user : Z) :
  len users = max_user ->
  1 <= max_user ->
  (forall u, In u users -> EventUser.validate u = Ok tt) ->
  exists self,
    EventAPI.init (PStr b) (PStr k) (PStr e) (Some users) PNone PNone PNone
                  is_devchannel max_user = Ok self /\
    EventAPI.validate self = Ok tt.
Proof.
  intros Hlen Hmax Hall.
  assert (G : forall b' dev,
            EventAPI.validate
              (EventAPI.mk (PStr b') (PStr k) (PStr e) users
                 (EventAPI.or_empty PNone) (EventAPI.or_empty PNone) PNone
                 dev max_user) = Ok tt).
  { intros b' dev.
    rewrite EventAPI_validate_strings with (b := b') (k := k) (e := e)
      by reflexivity.
    cbn [EventAPI.users EventAPI.max_user EventAPI.params EventAPI.option
         EventAPI.data].
    destruct users as [|u us]; [rewrite len_nil in Hlen; lia|].
    cbn [bind].
    replace (len (u :: us) >? max_user) with false
      by (symmetry; rewrite Z.gtb_ltb; apply Z.ltb_ge; lia).
    cbn [bind]. rewrite forM_all_Ok by exact Hall. reflexivity. }
  unfold EventAPI.init. destruct is_devchannel; cbn [bind]; eexists;
    (split; [reflexivity | apply G]).
Qed.

(* ================================================================== *)
(** ** The cards *)

Section CardProperties.
Context {L : LeafCode}.

Lemma validate_all_instances (c : leaf_class) (l : list pyval) :
  all_instances c l = true ->
  forM_ (fun v => validate_type (TLeaf c) [v] false) l = Ok tt /\
  validate_type (TLeaf c) l false = Ok tt.
Proof.
  intro H. unfold all_instances in H. rewrite forallb_forall in H.
  assert (Hone : forall v, In v l -> validate_one (TLeaf c) false v = Ok tt).
  { intros v Hv. unfold validate_one. rewrite (H v Hv).
    destruct (is_none v); reflexivity. }
  split.
  - apply forM_all_Ok. intros v Hv. unfold validate_type. cbn [forM_].
    rewrite (Hone v Hv). reflexivity.
  - unfold validate_type. apply forM_all_Ok. exact Hone.
Qed.

Lemma ParentCard_validate_buttons (bs : list pyval) :
  all_instances Button bs = true -> ParentCardComponent.validate bs = Ok tt.
Proof.
  intro H. unfold ParentCardComponent.validate, ParentComponent.validate.
  cbn [bind]. destruct bs as [|b bs]; [reflexivity|].
  apply validate_all_instances. exact H.
Qed.

Lemma ParentCard_validate_nil : ParentCardComponent.validate [] = Ok tt.
Proof. reflexivity. Qed.

(** *** No key bound to None *)

(** A key of a literal mapping that is bound to [None] is absent
    after [remove_none_item]. *)
Ltac absent_key :=
  apply remove_none_item_absent;
  let v := fresh "v" in
  let Hin := fresh "Hin" in
  intros v Hin; cbn [In] in Hin;
  repeat (destruct Hin as [Hin|Hin]; [try discriminate Hin|]);
  try contradiction;
  try (injection Hin as <-).

(** C3.  When a card renders, what it returns is a mapping in which no
    key is bound to [None], whatever the buttons, items and other
    leaves held by the card render to.  A field left unset has no key
    at all: for a [BasicCardComponent], [forwardable] is absent when
    the flag is false, as are [title], [description] and [buttons]
    when unset or empty. *)
Theorem render_has_no_none_value (c : card) (out : pyval) :
  card_render c = Ok out ->
  exists d,
    out = PDict d /\
    no_none_value d /\
    (forall k, dict_get k d <> Some PNone) /\
    (forall b, c = BasicCard b ->
       (truthy (BasicCardComponent.forwardable b) = false ->
        dict_mem "forwardable" d = false) /\
       (BasicCardComponent.title b = PNone -> dict_mem "title" d = false) /\
       (BasicCardComponent.description b = PNone ->
        dict_mem "description" d = false) /\
       (BasicCardComponent.buttons b = [] -> dict_mem "buttons" d = false)).
Proof.
  intro H.
  assert (G : forall d, no_none_value d -> forall k, dict_get k d <> Some PNone).
  { intros d Hd k Hk. apply dict_get_In in Hk.
    unfold no_none_value in Hd. rewrite Forall_forall in Hd.
    exact (Hd _ Hk eq_refl). }
  destruct c as [c|c|c|c|c]; cbn [card_render] in H.
  - unfold TextCardComponent.render in H. invert_binds. apply Ok_inj in H. subst out.
    eexists. split; [reflexivity|]. split; [apply remove_none_item_no_none|].
    split; [apply G, remove_none_item_no_none|]. intros b Hb. discriminate Hb.
  - unfold BasicCardComponent.render in H. invert_binds. apply Ok_inj in H. subst out.
    eexists. split; [reflexivity|]. split; [apply remove_none_item_no_none|].
    split; [apply G, remove_none_item_no_none|].
    intros b Hb. injection Hb as <-.
    split; [|split; [|split]]; intro Hf.
    + absent_key. rewrite Hf. reflexivity.
    + absent_key. exact Hf.
    + absent_key. exact Hf.
    + rewrite Hf in Ha1. apply Ok_inj in Ha1. subst a1. absent_key. reflexivity.
  - unfold CommerceCardComponent.render in H. invert_binds. apply Ok_inj in H. subst out.
    eexists. split; [reflexivity|]. split; [apply remove_none_item_no_none|].
    split; [apply G, remove_none_item_no_none|]. intros b Hb. discriminate Hb.
  - unfold ListCardComponent.render in H. invert_binds. apply Ok_inj in H. subst out.
    eexists. split; [reflexivity|]. split; [apply remove_none_item_no_none|].
    split; [apply G, remove_none_item_no_none|]. intros b Hb. discriminate Hb.
  - unfold ItemCardComponent.render in H. invert_binds. apply Ok_inj in H. subst out.
    eexists. split; [reflexivity|]. split; [apply remove_none_item_no_none|].
    split; [apply G, remove_none_item_no_none|]. intros b Hb. discriminate Hb.
Qed.

(** The two other places where the sources build a mapping through
    [remove_none_item], and the model of the leaves' [render]. *)
Lemma EventUser_render_no_none (u : EventUser.t) :
  exists d, EventUser.render u = PDict d /\ no_none_value d.
Proof. eexists. split; [reflexivity | apply remove_none_item_no_none]. Qed.

Lemma Context_render_no_none (self : Context.t) (out : pyval) :
  Context.render self = Ok out -> exists d, out = PDict d /\ no_none_value d.
Proof.
  unfold Context.render. intro H. invert_binds. apply Ok_inj in H. subst out.
  eexists. split; [reflexivity | apply remove_none_item_no_none].
Qed.

Lemma SpecLeaves_render_no_none (c : leaf_class) (attrs : pydict) (out : pyval) :
  SpecLeaves.render c attrs = Ok out ->
  exists d, out = PDict d /\ no_none_value d.
Proof.
  unfold SpecLeaves.render, SpecLeaves.wire. intro H. invert_binds.
  apply Ok_inj in H. subst out.
  eexists. split; [reflexivity | apply remove_none_item_no_none].
Qed.

(** *** Text cards *)

(** C6.  A [TextCardComponent] with neither title nor description
    fails [validate()] and [render()], whatever its buttons, and with
    [ValueError] when it has no button.  With exactly one of the two a
    string and no button, [render()] returns the mapping that has that
    field under its own key and nothing else. *)
Theorem TextCard_title_or_description :
  (forall bs : list pyval,
     exists e,
       TextCardComponent.validate (TextCardComponent.mk bs PNone PNone) = Err e /\
       TextCardComponent.render (TextCardComponent.mk bs PNone PNone) = Err e) /\
  (TextCardComponent.validate (TextCardComponent.init PNone PNone None)
     = Err ValueError /\
   TextCardComponent.render (TextCardComponent.init PNone PNone None)
     = Err ValueError) /\
  (forall s : string,
     TextCardComponent.validate (TextCardComponent.init (PStr s) PNone None)
       = Ok tt /\
     TextCardComponent.render (TextCardComponent.init (PStr s) PNone None)
       = Ok (PDict [("title", PStr s)])) /\
  (forall s : string,
     TextCardComponent.validate (TextCardComponent.init PNone (PStr s) None)
       = Ok tt /\
     TextCardComponent.render (TextCardComponent.init PNone (PStr s) None)
       = Ok (PDict [("description", PStr s)])).
Proof.
  split; [|split; [|split]].
  - intro bs.
    assert (H : exists e, TextCardComponent.validate
                            (TextCardComponent.mk bs PNone PNone) = Err e).
    { unfold TextCardComponent.validate. cbn [TextCardComponent.buttons].
      destruct (ParentCardComponent.validate bs) as [[]|e].
      - exists ValueError. reflexivity.
      - exists e. reflexivity. }
    destruct H as [e He]. exists e. split; [exact He|].
    exact (card_render_validates (TextCard _) e He).
  - split; reflexivity.
  - intro s. split; reflexivity.
  - intro s. split; reflexivity.
Qed.

(** *** List cards *)

Lemma ListCard_validate_eq (self : ListCardComponent.t) :
  well_typed self = true ->
  ListCardComponent.validate self =
  ((if len (ListCardComponent.items self) <? 1
    then Err AssertionError else Ok tt) ;;;
   (if len (ListCardComponent.items self) >? ListCardComponent.max_items self
    then Err AssertionError else Ok tt) ;;;
   (if len (ListCardComponent.buttons self) >? ListCardComponent.max_buttons self
    then Err AssertionError else Ok tt) ;;;
   Ok tt).
Proof.
  unfold well_typed. intro H.
  apply andb_prop in H. destruct H as [H Hitems].
  apply andb_prop in H. destruct H as [Hbuttons Hheader].
  unfold ListCardComponent.validate.
  rewrite (ParentCard_validate_buttons _ Hbuttons). cbn [bind].
  destruct (len (ListCardComponent.items self) <? 1); [reflexivity|].
  destruct (len (ListCardComponent.items self) >? ListCardComponent.max_items self);
    [reflexivity|].
  destruct (len (ListCardComponent.buttons self)
            >? ListCardComponent.max_buttons self); [reflexivity|].
  cbn [bind].
  replace (validate_type (TLeaf ListItem) [ListCardComponent.header self] true)
    with (Ok tt).
  - cbn [bind]. apply validate_all_instances. exact Hitems.
  - destruct (ListCardComponent.header self); try discriminate Hheader.
    unfold validate_type, validate_one. cbn [forM_ is_none].
    rewrite Hheader. reflexivity.
Qed.

Lemma render_list_if_total (l : list pyval) :
  (forall v, In v l -> exists r, call_render v = Ok r) ->
  exists r, render_list_if l = Ok r.
Proof.
  intro H. destruct l as [|x l]; [exists PNone; reflexivity|].
  destruct (mapM_total call_render (x :: l) H) as [rs Hrs].
  exists (PList rs). unfold render_list_if. rewrite Hrs. reflexivity.
Qed.

(** C5.  For a [ListCardComponent] with [max_items] 5 whose buttons,
    header and items are of the classes their fields are meant for:
    with 6 items [validate()] and [render()] raise [AssertionError];
    with exactly 5 items and no more than [max_buttons] buttons
    [validate()] accepts, and [render()] returns a mapping once the
    header, the items and the buttons render; with no item both raise
    [AssertionError]; and with more than [max_buttons] buttons both
    raise [AssertionError]. *)
Theorem ListCard_item_and_button_caps (self : ListCardComponent.t) :
  ListCardComponent.max_items self = 5 ->
  well_typed self = true ->
  (length (ListCardComponent.items self) = 6%nat ->
   ListCardComponent.validate self = Err AssertionError /\
   ListCardComponent.render self = Err AssertionError) /\
  (length (ListCardComponent.items self) = 5%nat ->
   len (ListCardComponent.buttons self) <= ListCardComponent.max_buttons self ->
   ListCardComponent.validate self = Ok tt /\
   ((forall v, In v (ListCardComponent.header self
                     :: ListCardComponent.items self
                     ++ ListCardComponent.buttons self)%list ->
               exists r, call_render v = Ok r) ->
    exists d, ListCardComponent.render self = Ok (PDict d))) /\
  (ListCardComponent.items self = [] ->
   ListCardComponent.validate self = Err AssertionError /\
   ListCardComponent.render self = Err AssertionError) /\
  (len (ListCardComponent.buttons self) > ListCardComponent.max_buttons self ->
   ListCardComponent.validate self = Err AssertionError /\
   ListCardComponent.render self = Err AssertionError).
Proof.
  intros Hmax Hty.
  pose proof (ListCard_validate_eq self Hty) as Hv.
  assert (Hr : forall e, ListCardComponent.validate self = Err e ->
                         ListCardComponent.render self = Err e)
    by (intros e He; exact (card_render_validates (ListCard self) e He)).
  rewrite Hmax in Hv.
  split; [|split; [|split]].
  - intro H6. assert (Hv' : ListCardComponent.validate self = Err AssertionError).
    { rewrite Hv. unfold len. rewrite H6. reflexivity. }
    split; [exact Hv' | exact (Hr _ Hv')].
  - intros H5 Hb.
    assert (Hv' : ListCardComponent.validate self = Ok tt).
    { rewrite Hv. unfold len at 1 2. rewrite H5. cbn [bind].
      change (Z.of_nat 5 <? 1) with false. change (Z.of_nat 5 >? 5) with false.
      cbn [bind].
      replace (len (ListCardComponent.buttons self)
               >? ListCardComponent.max_buttons self) with false
        by (symmetry; rewrite Z.gtb_ltb; apply Z.ltb_ge; lia).
      reflexivity. }
    split; [exact Hv'|].
    intro Hall. unfold ListCardComponent.render. rewrite Hv'. cbn [bind].
    destruct (Hall (ListCardComponent.header self) (or_introl eq_refl)) as [h Hh].
    rewrite Hh. cbn [bind].
    destruct (render_list_if_total (ListCardComponent.items self)) as [its Hits].
    { intros v Hin. apply Hall. right. apply in_or_app. left. exact Hin. }
    rewrite Hits. cbn [bind].
    destruct (render_list_if_total (ListCardComponent.buttons self)) as [bs Hbs].
    { intros v Hin. apply Hall. right. apply in_or_app. right. exact Hin. }
    rewrite Hbs. cbn [bind]. eexists. reflexivity.
  - intro H0. assert (Hv' : ListCardComponent.validate self = Err AssertionError).
    { rewrite Hv, H0. reflexivity. }
    split; [exact Hv' | exact (Hr _ Hv')].
  - intro Hb. assert (Hv' : ListCardComponent.validate self = Err AssertionError).
    { rewrite Hv.
      destruct (len (ListCardComponent.items self) <? 1); [reflexivity|].
      destruct (len (ListCardComponent.items self) >? 5); [reflexivity|].
      apply Z.gtb_gt in Hb. rewrite Hb. reflexivity. }
    split; [exact Hv' | exact (Hr _ Hv')].
Qed.

(** *** The two modes of add_item and add_button *)

Lemma add_item_prebuilt (self : ListCardComponent.t) (fields : pydict) :
  ListCardComponent.add_item self [PLeaf ListItem fields] [] =
  Ok (ListCardComponent.set_items self
        (ListCardComponent.items self ++ [PLeaf ListItem fields])%list).
Proof. reflexivity. Qed.

Lemma add_item_keyword (self : ListCardComponent.t) (item : pyval) :
  ListCardComponent.add_item self [] [("item", item)] =
  Ok (ListCardComponent.set_items self
        (ListCardComponent.items self ++ [item])%list).
Proof. reflexivity. Qed.

Lemma add_item_raw (self : ListCardComponent.t) (args : list pyval)
  (kwargs : pydict) :
  raw_fields ListItem "item" args kwargs = true ->
  ListCardComponent.add_item self args kwargs =
  (item <- leaf_new ListItem args kwargs ;;
   Ok (ListCardComponent.set_items self
         (ListCardComponent.items self ++ [PLeaf ListItem item])%list)).
Proof.
  unfold raw_fields, ListCardComponent.add_item. intro H.
  apply andb_prop in H. destruct H as [H1 H2].
  apply negb_true_iff in H1. apply negb_true_iff in H2.
  rewrite H1, H2. reflexivity.
Qed.

Lemma add_button_raw (buttons args : list pyval) (kwargs : pydict) :
  raw_fields Button "button" args kwargs = true ->
  ParentCardComponent.add_button buttons args kwargs =
  (button <- leaf_new Button args kwargs ;;
   Ok (buttons ++ [PLeaf Button button])%list).
Proof.
  unfold raw_fields, ParentCardComponent.add_button. intro H.
  apply andb_prop in H. destruct H as [H1 H2].
  apply negb_true_iff in H1. apply negb_true_iff in H2.
  rewrite H1, H2. reflexivity.
Qed.

(** C4.  On any [ListCardComponent]: when the raw fields construct a
    [ListItem], [add_item] called with those fields, [add_item] called
    with that [ListItem] (positionally or as [item=]) give the same
    card, the given one with that item appended, and so the same
    [render()] result.  Likewise [add_button] called with raw fields
    that construct a [Button] and [add_button] called with that
    [Button] (positionally or as [button=]). *)
Theorem add_item_add_button_two_modes (self : ListCardComponent.t)
  (args : list pyval) (kwargs : pydict) (fields : pydict)
  (bargs : list pyval) (bkwargs : pydict) (bfields : pydict) :
  (leaf_new ListItem args kwargs = Ok fields ->
   raw_fields ListItem "item" args kwargs = true ->
   let appended :=
     ListCardComponent.set_items self
       (ListCardComponent.items self ++ [PLeaf ListItem fields])%list in
   ListCardComponent.add_item self args kwargs = Ok appended /\
   ListCardComponent.add_item self [PLeaf ListItem fields] [] = Ok appended /\
   ListCardComponent.add_item self [] [("item", PLeaf ListItem fields)]
     = Ok appended /\
   (c <- ListCardComponent.add_item self args kwargs ;;
    ListCardComponent.render c)
   = (c <- ListCardComponent.add_item self [PLeaf ListItem fields] [] ;;
      ListCardComponent.render c)) /\
  (leaf_new Button bargs bkwargs = Ok bfields ->
   raw_fields Button "button" bargs bkwargs = true ->
   let appended :=
     ListCardComponent.set_buttons self
       (ListCardComponent.buttons self ++ [PLeaf Button bfields])%list in
   ListCardComponent.add_button self bargs bkwargs = Ok appended /\
   ListCardComponent.add_button self [PLeaf Button bfields] [] = Ok appended /\
   ListCardComponent.add_button self [] [("button", PLeaf Button bfields)]
     = Ok appended /\
   (c <- ListCardComponent.add_button self bargs bkwargs ;;
    ListCardComponent.render c)
   = (c <- ListCardComponent.add_button self [PLeaf Button bfields] [] ;;
      ListCardComponent.render c)).
Proof.
  split.
  - intros Hnew Hraw appended.
    assert (H : ListCardComponent.add_item self args kwargs = Ok appended).
    { rewrite (add_item_raw self args kwargs Hraw), Hnew. reflexivity. }
    split; [exact H|]. split; [apply add_item_prebuilt|].
    split; [apply add_item_keyword|].
    rewrite H, add_item_prebuilt. reflexivity.
  - intros Hnew Hraw appended.
    assert (H : ListCardComponent.add_button self bargs bkwargs = Ok appended).
    { unfold ListCardComponent.add_button.
      rewrite (add_button_raw _ bargs bkwargs Hraw), Hnew. reflexivity. }
    split; [exact H|]. split; [reflexivity|]. split; [reflexivity|].
    rewrite H. reflexivity.
Qed.

(** *** Item cards *)

(** C10 (amended).  [ItemCardComponent.remove_item] reads its first
    positional argument before anything else: a call with no
    positional argument raises [IndexError] whatever keywords it
    passes, [item=] and [index=] included, and takes no branch of the
    chain.  The keyword branches are reached by the calls that pass a
    first positional argument that is neither an [Item] nor an
    integer, and by no other call: such a call with the [item] keyword
    takes the [item] branch, and one without it and with the [index]
    keyword takes the [index] branch. *)
Theorem remove_item_keyword_only_raises (self : ItemCardComponent.t)
  (kwargs : pydict) :
  ItemCardComponent.remove_item self [] kwargs = Err IndexError /\
  ItemCardComponent.remove_item_branch [] kwargs = Err IndexError /\
  (forall args b,
     ItemCardComponent.remove_item_branch args kwargs = Ok b ->
     b = ItemCardComponent.KeywordItem \/ b = ItemCardComponent.KeywordIndex ->
     exists a rest,
       args = a :: rest /\
       isinstance a (TLeaf Item) = false /\
       isinstance a TInt = false) /\
  (forall a rest,
     isinstance a (TLeaf Item) = false ->
     isinstance a TInt = false ->
     (dict_mem "item" kwargs = true ->
      ItemCardComponent.remove_item_branch (a :: rest) kwargs
      = Ok ItemCardComponent.KeywordItem) /\
     (dict_mem "item" kwargs = false -> dict_mem "index" kwargs = true ->
      ItemCardComponent.remove_item_branch (a :: rest) kwargs
      = Ok ItemCardComponent.KeywordIndex)).
Proof.
  split; [reflexivity|]. split; [reflexivity|]. split.
  - intros args b Hb Hkw.
    destruct args as [|a rest]; [discriminate Hb|].
    exists a, rest. split; [reflexivity|].
    unfold ItemCardComponent.remove_item_branch in Hb. cbn [args_0 bind] in Hb.
    destruct (isinstance a (TLeaf Item)).
    + apply Ok_inj in Hb. subst b. destruct Hkw as [H|H]; discriminate H.
    + destruct (isinstance a TInt).
      * apply Ok_inj in Hb. subst b. destruct Hkw as [H|H]; discriminate H.
      * split; reflexivity.
  - intros a rest Hitem Hint.
    unfold ItemCardComponent.remove_item_branch. cbn [args_0 bind].
    rewrite Hitem, Hint. split.
    + intros ->. reflexivity.
    + intros -> ->. reflexivity.
Qed.

End CardProperties.

(* ================================================================== *)
(** ** The card properties on the example objects *)

Lemma render_has_no_none_value_witness :
  exists d,
    PDict [ ("thumbnail",
             PDict [("imageUrl", PStr "https://example.com/image.jpg")]);
            ("title", PStr "title") ] = PDict d /\
    no_none_value d /\
    (forall k, dict_get k d <> Some PNone) /\
    (forall b, BasicCard Examples.basic_card = BasicCard b ->
       (truthy (BasicCardComponent.forwardable b) = false ->
        dict_mem "forwardable" d = false) /\
       (BasicCardComponent.title b = PNone -> dict_mem "title" d = false) /\
       (BasicCardComponent.description b = PNone ->
        dict_mem "description" d = false) /\
       (BasicCardComponent.buttons b = [] -> dict_mem "buttons" d = false)).
Proof.
  exact (@render_has_no_none_value SpecLeaves.code
           (BasicCard Examples.basic_card) _ eq_refl).
Defined.

Lemma ListCard_item_and_button_caps_witness :
  ListCardComponent.validate Examples.full_list_card = Ok tt /\
  exists d,
    @ListCardComponent.render SpecLeaves.code Examples.full_list_card
    = Ok (PDict d).
Proof.
  destruct (@ListCard_item_and_button_caps SpecLeaves.code
              Examples.full_list_card eq_refl eq_refl) as [_ [H5 _]].
  assert (Hb : len (ListCardComponent.buttons Examples.full_list_card)
               <= ListCardComponent.max_buttons Examples.full_list_card)
    by (vm_compute; discriminate).
  destruct (H5 eq_refl Hb) as [Hv Hr].
  split; [exact Hv|]. apply Hr.
  intros v Hin. cbn in Hin.
  repeat (destruct Hin as [Hin|Hin]; [rewrite <- Hin; eexists; reflexivity|]).
  contradiction.
Defined.

Lemma add_item_add_button_two_modes_witness :
  (let appended :=
     ListCardComponent.set_items Examples.empty_list_card
       (ListCardComponent.items Examples.empty_list_card
        ++ [PLeaf ListItem Examples.item_fields])%list in
   @ListCardComponent.add_item SpecLeaves.code Examples.empty_list_card
     [PStr "title"] [("description", PStr "d")] = Ok appended /\
   @ListCardComponent.add_item SpecLeaves.code Examples.empty_list_card
     [PLeaf ListItem Examples.item_fields] [] = Ok appended /\
   @ListCardComponent.add_item SpecLeaves.code Examples.empty_list_card
     [] [("item", PLeaf ListItem Examples.item_fields)] = Ok appended /\
   (c <- @ListCardComponent.add_item SpecLeaves.code Examples.empty_list_card
           [PStr "title"] [("description", PStr "d")] ;;
    @ListCardComponent.render SpecLeaves.code c)
   = (c <- @ListCardComponent.add_item SpecLeaves.code Examples.empty_list_card
             [PLeaf ListItem Examples.item_fields] [] ;;
      @ListCardComponent.render SpecLeaves.code c)) /\
  (let appended :=
     ListCardComponent.set_buttons Examples.empty_list_card
       (ListCardComponent.buttons Examples.empty_list_card
        ++ [PLeaf Button Examples.button_fields])%list in
   @ListCardComponent.add_button SpecLeaves.code Examples.empty_list_card
     [PStr "label"; PStr "message"] [("message_text", PStr "hi")] = Ok appended /\
   @ListCardComponent.add_button SpecLeaves.code Examples.empty_list_card
     [PLeaf Button Examples.button_fields] [] = Ok appended /\
   @ListCardComponent.add_button SpecLeaves.code Examples.empty_list_card
     [] [("button", PLeaf Button Examples.button_fields)] = Ok appended /\
   (c <- @ListCardComponent.add_button SpecLeaves.code Examples.empty_list_card
           [PStr "label"; PStr "message"] [("message_text", PStr "hi")] ;;
    @ListCardComponent.render SpecLeaves.code c)
   = (c <- @ListCardComponent.add_button SpecLeaves.code Examples.empty_list_card
             [PLeaf Button Examples.button_fields] [] ;;
      @ListCardComponent.render SpecLeaves.code c)).
Proof.
  pose proof (@add_item_add_button_two_modes SpecLeaves.code
                Examples.empty_list_card
                [PStr "title"] [("description", PStr "d")] Examples.item_fields
                [PStr "label"; PStr "message"] [("message_text", PStr "hi")]
                Examples.button_fields) as [Hitem Hbutton].
  split.
  - exact (Hitem eq_refl eq_refl).
  - exact (Hbutton eq_refl eq_refl).
Defined.

Lemma remove_item_keyword_only_raises_witness :
  @ItemCardComponent.remove_item SpecLeaves.code Examples.item_card
    [] [("index", PInt 0)] = Err IndexError /\
  (exists a rest,
     [PStr "first"] = a :: rest /\
     isinstance a (TLeaf Item) = false /\
     isinstance a TInt = false) /\
  ItemCardComponent.remove_item_branch [PStr "first"] [("index", PInt 0)]
  = Ok ItemCardComponent.KeywordIndex.
Proof.
  pose proof (@remove_item_keyword_only_raises SpecLeaves.code
                Examples.item_card [("index", PInt 0)])
    as [H [_ [Hreach Hkey]]].
  split; [exact H|]. split.
  - exact (Hreach [PStr "first"] ItemCardComponent.KeywordIndex eq_refl
             (or_intror eq_refl)).
  - exact (proj2 (Hkey (PStr "first") [] eq_refl eq_refl) eq_refl eq_refl).
Defined.

(** C10, as the claim states it, fails: the keyword branches are not
    unreachable.  The call [remove_item("first", index=0)] takes the
    [index=] branch and removes the item at index 0. *)
Lemma remove_item_keyword_branch_reached :
  ItemCardComponent.remove_item_branch [PStr "first"] [("index", PInt 0)]
  = Ok ItemCardComponent.KeywordIndex /\
  @ItemCardComponent.remove_item SpecLeaves.code Examples.item_card
    [PStr "first"] [("index", PInt 0)]
  = Ok (ItemCardComponent.set_item_list Examples.item_card []).
Proof. split; reflexivity. Qed.

(* ================================================================== *)
(** ** More on remove_none_item *)

Lemma dict_get_not_key (k : string) (d : pydict) :
  ~ In k (map fst d) -> dict_get k d = None.
Proof.
  intro H. destruct (dict_get k d) as [v|] eqn:E; [|reflexivity].
  apply dict_get_In in E. elim H. apply in_map_iff. exists (k, v).
  split; [reflexivity | exact E].
Qed.

Lemma remove_none_item_keys (k : string) (base : pydict) :
  In k (map fst (remove_none_item base)) -> In k (map fst base).
Proof.
  intro H. apply in_map_iff in H. destruct H as [[k' v] [Hk Hin]].
  simpl in Hk. subst k'. apply remove_none_item_In in Hin.
  apply in_map_iff. exists (k, v). split; [reflexivity | exact (proj1 Hin)].
Qed.

(** A key whose first binding is not [None] keeps it. *)
Lemma remove_none_item_get (k : string) (v : pyval) (base : pydict) :
  dict_get k base = Some v -> is_none v = false ->
  dict_get k (remove_none_item base) = Some v.
Proof.
  induction base as [|[k' v'] base IH]; simpl; intros Hget Hv.
  - discriminate Hget.
  - destruct (k' =? k)%string eqn:E.
    + inversion Hget; subst v'. rewrite Hv. simpl. rewrite E. reflexivity.
    + destruct (is_none v'); [|simpl; rewrite E]; apply IH; assumption.
Qed.

(** X1.  On a mapping whose keys are distinct, as those of a [dict]
    are, [remove_none_item] leaves the lookup of every key as it was,
    except that a key bound to [None] is no longer a key. *)
Theorem remove_none_item_lookup (base : pydict) (k : string) :
  NoDup (map fst base) ->
  dict_get k (remove_none_item base) =
  match dict_get k base with
  | Some PNone => None
  | r => r
  end.
Proof.
  induction base as [|[k' v'] base IH]; simpl; intro Hnd.
  - reflexivity.
  - inversion Hnd as [|x l Hnotin Hnd']; subst.
    destruct (k' =? k)%string eqn:E.
    + apply String.eqb_eq in E. subst k'.
      destruct (is_none v') eqn:Hv.
      * destruct v'; try discriminate Hv.
        apply dict_get_not_key. intro H. apply Hnotin.
        apply remove_none_item_keys. exact H.
      * simpl. rewrite String.eqb_refl. destruct v'; try reflexivity.
        discriminate Hv.
    + destruct (is_none v'); [|simpl; rewrite E]; apply IH; exact Hnd'.
Qed.

Lemma remove_none_item_lookup_witness :
  dict_get "ttl" (remove_none_item
                    [("name", PStr "n"); ("ttl", PNone); ("lifeSpan", PInt 1)])
  = None.
Proof.
  refine (remove_none_item_lookup
            [("name", PStr "n"); ("ttl", PNone); ("lifeSpan", PInt 1)] "ttl" _).
  repeat constructor; simpl; intuition discriminate.
Defined.

(** X2.  [remove_none_item] keeps the pairs whose value is not [None]
    in their order; applying it twice is applying it once; and it
    returns its argument unchanged exactly when no value is [None]. *)
Theorem remove_none_item_filter (base : pydict) :
  remove_none_item base = filter (fun kv => negb (is_none (snd kv))) base /\
  remove_none_item (remove_none_item base) = remove_none_item base /\
  (remove_none_item base = base <-> no_none_value base).
Proof.
  split; [|split].
  - induction base as [|[k v] base IH]; simpl; [reflexivity|].
    rewrite IH. destruct (is_none v); reflexivity.
  - induction base as [|[k v] base IH]; simpl; [reflexivity|].
    destruct (is_none v) eqn:E; [exact IH|].
    simpl. rewrite E, IH. reflexivity.
  - split.
    + intro H. rewrite <- H. apply remove_none_item_no_none.
    + unfold no_none_value. induction 1 as [|[k v] base Hv _ IH]; simpl.
      * reflexivity.
      * rewrite IH. destruct v; try reflexivity. elim Hv. reflexivity.
Qed.

(* ================================================================== *)
(** ** Parsing a context *)

Lemma get_default_dict (d : pydict) (key : string) (default : pyval) :
  get_default (PDict d) key default = Ok (field d key default).
Proof. reflexivity. Qed.

Lemma validate_one_error (t : pytype) (b : bool) (v : pyval) (e : error) :
  validate_one t b v = Err e -> e = InvalidTypeError.
Proof.
  unfold validate_one.
  destruct (is_none v), b, (isinstance v t); intro H;
    try discriminate H; inversion H; reflexivity.
Qed.

Lemma from_dict_inbound_params (ps : list (string * (string * string))) :
  mapM (fun kv => v <- ContextParam.from_dict (snd kv) ;; Ok (fst kv, v))
       (map (fun p => (fst p, PDict [ ("value", PStr (fst (snd p)));
                                      ("resolvedValue", PStr (snd (snd p))) ]))
            ps)
  = Ok (map (fun p => (fst p, PContextParam (PStr (fst (snd p)))
                                            (PStr (snd (snd p))))) ps).
Proof.
  induction ps as [|p ps IH]; [reflexivity|].
  cbn [map mapM]. rewrite IH. reflexivity.
Qed.

Lemma Context_render_params_of (name lifespan ttl : pyval)
  (ps : list (string * (string * string))) :
  Context.render (Context.init name lifespan ttl (context_params ps))
  = Ok (PDict (remove_none_item
                 [ ("name", name); ("lifeSpan", lifespan); ("ttl", ttl);
                   ("params", rendered_params ps) ])).
Proof.
  pose proof (render_context_params ps) as H.
  unfold Context.render.
  change (Context.params (Context.init name lifespan ttl (context_params ps)))
    with (Context.params (Context.init PNone PNone PNone (context_params ps))).
  rewrite H. reflexivity.
Qed.

(** X3.  [Context.from_dict] on a payload mapping whose [params] bind
    each key to a mapping with a string [value] and [resolvedValue]
    (or that has no [params]) builds the context with the fields of
    the mapping, an absent [name] or [lifespan] read as the empty
    string and an absent [ttl] as [None]; rendering it gives the
    response shape, with [lifespan] under the key [lifeSpan] and each
    parameter reduced to its value. *)
Theorem Context_from_dict_render (d : pydict)
  (ps : list (string * (string * string))) :
  field d "params" (PDict []) = inbound_params ps ->
  Context.from_dict (PDict d)
  = Ok (Context.init (field d "name" (PStr "")) (field d "lifespan" (PStr ""))
          (field d "ttl" PNone) (context_params ps)) /\
  (c <- Context.from_dict (PDict d) ;; Context.render c)
  = Ok (PDict (remove_none_item
                 [ ("name", field d "name" (PStr ""));
                   ("lifeSpan", field d "lifespan" (PStr ""));
                   ("ttl", field d "ttl" PNone);
                   ("params", rendered_params ps) ])).
Proof.
  intro Hps.
  assert (H : Context.from_dict (PDict d)
              = Ok (Context.init (field d "name" (PStr ""))
                      (field d "lifespan" (PStr "")) (field d "ttl" PNone)
                      (context_params ps))).
  { unfold Context.from_dict. rewrite !get_default_dict. cbn [bind].
    rewrite Hps. unfold inbound_params.
    rewrite from_dict_inbound_params. reflexivity. }
  split; [exact H|].
  rewrite H. cbn [bind]. apply Context_render_params_of.
Qed.

Lemma Context_from_dict_render_witness :
  (c <- Context.from_dict
          (PDict [ ("name", PStr "ctx"); ("lifespan", PInt 1);
                   ("params", PDict [("key", PDict [ ("value", PStr "v");
                                                     ("resolvedValue", PStr "r") ])]) ]) ;;
   Context.render c)
  = Ok (PDict [ ("name", PStr "ctx"); ("lifeSpan", PInt 1);
                ("params", PDict [("key", PStr "v")]) ]).
Proof.
  exact (proj2 (Context_from_dict_render
                  [ ("name", PStr "ctx"); ("lifespan", PInt 1);
                    ("params", PDict [("key", PDict [ ("value", PStr "v");
                                                      ("resolvedValue", PStr "r") ])]) ]
                  [("key", ("v", "r"))] eq_refl)).
Defined.

(** X4.  A payload mapping with no [lifespan] key is parsed with the
    empty string as lifespan, and the context so built never passes
    [validate()]: it raises [InvalidTypeError]. *)
Theorem Context_from_dict_without_lifespan (d : pydict) (c : Context.t) :
  dict_get "lifespan" d = None ->
  Context.from_dict (PDict d) = Ok c ->
  Context.lifespan c = PStr "" /\
  Context.validate c = Err InvalidTypeError.
Proof.
  intros Hl H. unfold Context.from_dict in H. rewrite !get_default_dict in H.
  cbn [bind] in H. invert_binds. apply Ok_inj in H. subst c.
  replace (field d "lifespan" (PStr "")) with (PStr "")
    by (unfold field; rewrite Hl; reflexivity).
  split; [reflexivity|].
  unfold Context.validate, Context.init.
  cbn [Context.name Context.lifespan Context.ttl Context.params].
  unfold validate_str, validate_int, validate_type. cbn [forM_].
  destruct (validate_one TStr false (field d "name" (PStr ""))) as [[]|e] eqn:E.
  - reflexivity.
  - apply validate_one_error in E. subst e. reflexivity.
Qed.

Lemma Context_from_dict_without_lifespan_witness :
  Context.validate (Context.init (PStr "ctx") (PStr "") PNone (PDict []))
  = Err InvalidTypeError.
Proof.
  exact (proj2 (Context_from_dict_without_lifespan
                  [("name", PStr "ctx")]
                  (Context.init (PStr "ctx") (PStr "") PNone (PDict []))
                  eq_refl eq_refl)).
Defined.

(** X5.  What [Context.render] returns is not what [Context.from_dict]
    reads.  When the context has parameters, [from_dict] on the
    rendered mapping raises [AttributeError], since each parameter is
    rendered as a string and [from_dict] reads it as a mapping.  When
    it has none, [from_dict] succeeds but reads the lifespan as the
    empty string, since [render] writes it under [lifeSpan] and
    [from_dict] looks for [lifespan]. *)
Theorem Context_render_not_parsed_back (name lifespan ttl : pyval)
  (ps : list (string * (string * string))) (out : pyval) :
  Context.render (Context.init name lifespan ttl (context_params ps)) = Ok out ->
  (ps <> [] -> Context.from_dict out = Err AttributeError) /\
  (ps = [] ->
   Context.from_dict out
   = Ok (Context.init (if is_none name then PStr "" else name) (PStr "") ttl
           (PDict []))).
Proof.
  rewrite Context_render_params_of. intro H. apply Ok_inj in H. subst out.
  split.
  - intro Hne. destruct ps as [|p ps]; [elim Hne; reflexivity|].
    destruct name, lifespan, ttl; reflexivity.
  - intros ->. destruct name, lifespan, ttl; reflexivity.
Qed.

Lemma Context_render_not_parsed_back_witness :
  Context.from_dict
    (PDict [ ("name", PStr "ctx"); ("lifeSpan", PInt 3);
             ("params", PDict [("key", PStr "v")]) ])
  = Err AttributeError /\
  Context.from_dict (PDict [("name", PStr "ctx"); ("lifeSpan", PInt 3)])
  = Ok (Context.init (PStr "ctx") (PStr "") PNone (PDict [])).
Proof.
  split.
  - refine (proj1 (Context_render_not_parsed_back (PStr "ctx") (PInt 3) PNone
                     [("key", ("v", "r"))] _ eq_refl) _).
    discriminate.
  - exact (proj2 (Context_render_not_parsed_back (PStr "ctx") (PInt 3) PNone
                    [] _ eq_refl) eq_refl).
Defined.

(* ================================================================== *)
(** ** is_empty *)

Lemma remove_none_item_nil (base : pydict) :
  remove_none_item base = [] -> forall k v, In (k, v) base -> v = PNone.
Proof.
  intros H k v Hin. destruct v; try reflexivity;
    (assert (Hin' : In (k, _) (remove_none_item base))
       by (apply remove_none_item_In; split; [exact Hin | discriminate]);
     rewrite H in Hin'; contradiction).
Qed.

(** X6.  [is_empty] of a [Context] is true exactly when the name, the
    lifespan and the time to live are [None] and the parameters were
    given empty or not at all; a context with the empty string as name
    is not empty.  [is_empty] of a [ContextParam] is true exactly when
    its value is [None] or the empty string and its resolved value is a
    string or [None]. *)
Theorem is_empty_iff :
  (forall name lifespan ttl params : pyval,
     Context.is_empty (Context.init name lifespan ttl params) = Ok true <->
     name = PNone /\ lifespan = PNone /\ ttl = PNone /\ truthy params = false) /\
  (forall value resolved_value : pyval,
     ContextParam.is_empty value resolved_value = Ok true <->
     (value = PNone \/ value = PStr "") /\
     (resolved_value = PNone \/ exists s, resolved_value = PStr s)).
Proof.
  split.
  - intros name lifespan ttl params. split.
    + unfold Context.is_empty. intro H.
      apply bind_Ok in H. destruct H as [r [Hr H]].
      apply Ok_inj in H. apply negb_true_iff in H.
      unfold Context.render in Hr.
      apply bind_Ok in Hr. destruct Hr as [ps [Hps Hr]].
      apply Ok_inj in Hr. subst r. cbn [truthy] in H.
      destruct (remove_none_item _) as [|x l] eqn:E; [|discriminate H].
      pose proof (remove_none_item_nil _ E) as N.
      assert (Hn : name = PNone) by (apply (N "name"); simpl; tauto).
      assert (Hl : lifespan = PNone) by (apply (N "lifeSpan"); simpl; tauto).
      assert (Ht : ttl = PNone) by (apply (N "ttl"); simpl; tauto).
      assert (Hp : ps = PNone) by (apply (N "params"); simpl; tauto).
      repeat split; try assumption.
      subst ps. unfold Context.init in Hps. cbn [Context.params] in Hps.
      destruct (truthy params) eqn:Tp; [|reflexivity].
      unfold Context.render_params in Hps. rewrite Tp in Hps.
      destruct params; try discriminate Hps.
      apply bind_Ok in Hps. destruct Hps as [d' [_ Hps]]. discriminate Hps.
    + intros [-> [-> [-> Hp]]]. unfold Context.is_empty, Context.init.
      rewrite Hp. reflexivity.
  - intros value resolved_value. split.
    + unfold ContextParam.is_empty. intro H.
      apply bind_Ok in H. destruct H as [r [Hr H]].
      apply Ok_inj in H. apply negb_true_iff in H.
      unfold ContextParam.render in Hr.
      apply bind_Ok in Hr. destruct Hr as [[] [Hv Hr]].
      apply Ok_inj in Hr. subst r.
      destruct value; try discriminate H; try discriminate Hv.
      * split; [left; reflexivity|].
        destruct resolved_value; try discriminate Hv;
          [left; reflexivity | right; eexists; reflexivity].
      * destruct s; [|discriminate H]. split; [right; reflexivity|].
        destruct resolved_value; try discriminate Hv;
          [left; reflexivity | right; eexists; reflexivity].
    + intros [[->| ->] [->|[s ->]]]; reflexivity.
Qed.

(* ================================================================== *)
(** ** The status-check response *)

(** X7.  [CheckEventAPIResponse.from_dict] accepts every mapping, a
    missing key read as its default, and raises [AttributeError] on
    anything else.  On the parsed object [fail_count] and [fail_list]
    are 0 and the empty list when the mapping has no [fail] or has it
    as [None]; when [fail] is a mapping they are its [count] and
    [list], or 0 and the empty list where it lacks them; when [fail]
    is any other value both raise [AttributeError]. *)
Theorem CheckEventAPIResponse_fail (d : pydict) :
  CheckEventAPIResponse.from_dict (PDict d)
  = Ok (CheckEventAPIResponse.mk
          (field d "task_id" (PStr "")) (field d "status" (PStr ""))
          (field d "all_request_count" (PInt 0))
          (field d "success_count" (PInt 0)) (field d "fail" PNone)) /\
  (forall r, CheckEventAPIResponse.from_dict (PDict d) = Ok r ->
     (field d "fail" PNone = PNone ->
      CheckEventAPIResponse.fail_count r = Ok (PInt 0) /\
      CheckEventAPIResponse.fail_list r = Ok (PList [])) /\
     (forall f, dict_get "fail" d = Some (PDict f) ->
        CheckEventAPIResponse.fail_count r = Ok (field f "count" (PInt 0)) /\
        CheckEventAPIResponse.fail_list r = Ok (field f "list" (PList []))) /\
     (forall v, dict_get "fail" d = Some v ->
        is_none v = false -> isinstance v TDict = false ->
        CheckEventAPIResponse.fail_count r = Err AttributeError /\
        CheckEventAPIResponse.fail_list r = Err AttributeError)) /\
  (forall data, isinstance data TDict = false ->
     CheckEventAPIResponse.from_dict data = Err AttributeError).
Proof.
  assert (Hfd : CheckEventAPIResponse.from_dict (PDict d)
                = Ok (CheckEventAPIResponse.mk
                        (field d "task_id" (PStr "")) (field d "status" (PStr ""))
                        (field d "all_request_count" (PInt 0))
                        (field d "success_count" (PInt 0))
                        (field d "fail" PNone))) by reflexivity.
  split; [exact Hfd|]. split.
  - intros r H. rewrite Hfd in H. apply Ok_inj in H. subst r.
    unfold CheckEventAPIResponse.fail_count, CheckEventAPIResponse.fail_list.
    cbn [CheckEventAPIResponse.fail]. split; [|split].
    + intros ->. split; reflexivity.
    + intros f Hf. unfold field at 1 2 4 5. rewrite Hf. split; reflexivity.
    + intros v Hv Hn Hd. unfold field. rewrite Hv, Hn.
      destruct v; try discriminate Hn; try discriminate Hd; split; reflexivity.
  - intros data H. destruct data; try reflexivity. discriminate H.
Qed.

(* ================================================================== *)
(** ** Event users and the notification body *)

Lemma forM_Ok_inv {A : Type} (f : A -> result unit) (l : list A) :
  forM_ f l = Ok tt -> forall x, In x l -> f x = Ok tt.
Proof.
  induction l as [|y l IH]; simpl; intros H x Hin; [contradiction|].
  destruct (f y) as [[]|e] eqn:E; [|discriminate H].
  destruct Hin as [<-|Hin]; [exact E | apply IH; assumption].
Qed.

Lemma validate_one_Ok (t : pytype) (b : bool) (v : pyval) :
  validate_one t b v = Ok tt <->
  (is_none v = true /\ b = false) \/ (is_none v = false /\ isinstance v t = true).
Proof.
  unfold validate_one. destruct (is_none v), b, (isinstance v t);
    split; intro H; try discriminate H; try reflexivity; try tauto;
    destruct H as [[H1 H2]|[H1 H2]]; discriminate.
Qed.

Lemma isinstance_str (v : pyval) :
  isinstance v TStr = true -> exists s, v = PStr s.
Proof. destruct v; try discriminate. intros _. eexists. reflexivity. Qed.

Lemma truthy_not_none (v : pyval) : truthy v = true -> is_none v = false.
Proof. destruct v; try reflexivity. discriminate. Qed.

(** X8.  [EventUser.validate] accepts a user exactly when its id type
    is one of [appUserId], [plusfriendUserKey] and [botUserKey], its id
    is a string and its properties are a mapping or [None].  Any other
    id type raises [AssertionError], whatever the id and the
    properties; with an allowed id type a wrong id or wrong properties
    raise [InvalidTypeError]. *)
Theorem EventUser_validate_iff (u : EventUser.t) :
  (EventUser.validate u = Ok tt <->
   (EventUser.id_type u = PStr "appUserId" \/
    EventUser.id_type u = PStr "plusfriendUserKey" \/
    EventUser.id_type u = PStr "botUserKey") /\
   (exists s, EventUser.id u = PStr s) /\
   optional_dict (EventUser.properties u) = true) /\
  (EventUser.in_type_list (EventUser.id_type u) = false ->
   EventUser.validate u = Err AssertionError) /\
  (EventUser.in_type_list (EventUser.id_type u) = true ->
   EventUser.validate u = Ok tt \/ EventUser.validate u = Err InvalidTypeError).
Proof.
  destruct u as [ty id props].
  assert (Hty : EventUser.in_type_list ty = true <->
                ty = PStr "appUserId" \/ ty = PStr "plusfriendUserKey" \/
                ty = PStr "botUserKey").
  { destruct ty; simpl; try (split; [discriminate | intros [H|[H|H]]; discriminate H]).
    rewrite !orb_true_iff, !String.eqb_eq. split.
    - intros [H|[H|[H|H]]]; subst; tauto || discriminate H.
    - intros [H|[H|H]]; inversion H; tauto. }
  unfold EventUser.validate.
  cbn [EventUser.id_type EventUser.id EventUser.properties].
  destruct (EventUser.in_type_list ty) eqn:E.
  - split; [|split; [discriminate|intros _]].
    + rewrite <- Hty. unfold validate_str, validate_type. cbn [forM_ bind].
      split.
      * intro H. split; [reflexivity|].
        destruct (validate_one TStr true id) as [[]|e] eqn:E1; [|discriminate H].
        destruct (validate_one TDict false props) as [[]|e] eqn:E2; [|discriminate H].
        apply validate_one_Ok in E1. apply validate_one_Ok in E2.
        destruct E1 as [[_ E1]|[_ E1]]; [discriminate E1|].
        split; [apply isinstance_str; exact E1|].
        unfold optional_dict.
        destruct E2 as [[E2 _]|[_ E2]]; rewrite E2; [reflexivity|apply orb_true_r].
      * intros [_ [[s ->] Hp]]. cbn [validate_one is_none isinstance bind].
        unfold optional_dict in Hp. unfold validate_one.
        destruct (is_none props); [reflexivity|].
        cbn [orb] in Hp. rewrite Hp. reflexivity.
    + unfold validate_str, validate_type. cbn [forM_ bind].
      destruct (validate_one TStr true id) as [[]|e] eqn:E1.
      * destruct (validate_one TDict false props) as [[]|e] eqn:E2.
        -- left. reflexivity.
        -- right. apply validate_one_error in E2. subst e. reflexivity.
      * right. apply validate_one_error in E1. subst e. reflexivity.
  - split; [|split; [reflexivity|discriminate]].
    split; [discriminate|]. intros [H _]. apply Hty in H. discriminate H.
Qed.

(** X9.  When [EventAPI.validate] accepts, [render()] (and so the
    [body] property) returns exactly this mapping: [event] holds the
    event name and, unless empty, the data; [user] holds the rendering
    of every user, one entry per user in the order of the list;
    [params] is there unless empty and [option] unless [None]. *)
Theorem EventAPI_render_shape (self : EventAPI.t) :
  EventAPI.validate self = Ok tt ->
  EventAPI.users self <> [] /\
  (exists e, EventAPI.event self = PStr e) /\
  EventAPI.body self = EventAPI.render self /\
  EventAPI.render self =
  Ok (PDict
        (("event",
          PDict (("name", EventAPI.event self)
                 :: (if truthy (EventAPI.data self)
                     then [("data", EventAPI.data self)] else [])))
         :: ("user", PList (map EventUser.render (EventAPI.users self)))
         :: ((if truthy (EventAPI.params self)
              then [("params", EventAPI.params self)] else [])
             ++ (if is_none (EventAPI.option self)
                 then [] else [("option", EventAPI.option self)]))%list)).
Proof.
  intro H. pose proof H as Hv. unfold EventAPI.validate in H.
  apply bind_Ok in H. destruct H as [[] [Hs H]].
  apply bind_Ok in H. destruct H as [[] [Hne H]]. clear H.
  assert (He : exists e, EventAPI.event self = PStr e).
  { unfold validate_str, validate_type in Hs.
    pose proof (forM_Ok_inv _ _ Hs (EventAPI.event self)) as He.
    cbn [In] in He. specialize (He ltac:(tauto)).
    apply validate_one_Ok in He. destruct He as [[_ He]|[_ He]];
      [discriminate He | apply isinstance_str; exact He]. }
  assert (Hu : EventAPI.users self <> []).
  { intro E. rewrite E in Hne. discriminate Hne. }
  split; [exact Hu|]. split; [exact He|]. split; [reflexivity|].
  unfold EventAPI.render. rewrite Hv. cbn [bind].
  destruct He as [e He]. rewrite He.
  destruct (EventAPI.users self) as [|u us]; [elim Hu; reflexivity|].
  cbn [remove_none_item is_none].
  destruct (truthy (EventAPI.data self)) eqn:Td;
    destruct (truthy (EventAPI.params self)) eqn:Tp;
    try rewrite (truthy_not_none _ Td); try rewrite (truthy_not_none _ Tp);
    cbn [is_none]; destruct (is_none (EventAPI.option self)); reflexivity.
Qed.

Lemma EventAPI_render_shape_witness :
  EventAPI.render
    (EventAPI.mk (PStr "bot") (PStr "key") (PStr "event")
       [EventUser.mk (PStr "appUserId") (PStr "u1") PNone;
        EventUser.mk (PStr "botUserKey") (PStr "u2") PNone]
       (PDict []) (PDict [("k", PStr "v")]) PNone false 100)
  = Ok (PDict
          [ ("event", PDict [("name", PStr "event")]);
            ("user", PList [ PDict [("type", PStr "appUserId"); ("id", PStr "u1")];
                             PDict [("type", PStr "botUserKey"); ("id", PStr "u2")] ]);
            ("params", PDict [("k", PStr "v")]) ]).
Proof.
  exact (proj2 (proj2 (proj2
           (EventAPI_render_shape
              (EventAPI.mk (PStr "bot") (PStr "key") (PStr "event")
                 [EventUser.mk (PStr "appUserId") (PStr "u1") PNone;
                  EventUser.mk (PStr "botUserKey") (PStr "u2") PNone]
                 (PDict []) (PDict [("k", PStr "v")]) PNone false 100)
              eq_refl)))).
Defined.

(** X10.  On the development channel the marker at the end of the bot
    id is optional: a bot id and the same id followed by [!] give the
    same object, hence the same URL, when the id does not itself end
    in [!].  Off the development channel the id is stored as given,
    marker included. *)
Theorem EventAPI_marker_optional (b : string) (api_key event : pyval)
  (users : option (list EventUser.t)) (data params option : pyval)
  (max_user : Z) :
  endswith b "!" = false ->
  EventAPI.init (PStr (b ++ "!")) api_key event users data params option
                true max_user
  = EventAPI.init (PStr b) api_key event users data params option true max_user /\
  (exists self,
     EventAPI.init (PStr b) api_key event users data params option true max_user
       = Ok self /\
     EventAPI.bot_id self = PStr b) /\
  (exists self,
     EventAPI.init (PStr (b ++ "!")) api_key event users data params option
                   false max_user = Ok self /\
     EventAPI.bot_id self = PStr (b ++ "!") /\
     EventAPI.url self
     = Some ("https://bot-api.kakao.com/v2/bots/" ++ (b ++ "!") ++ "/talk")).
Proof.
  intro H. unfold EventAPI.init.
  rewrite endswith_app, drop_last_app, H. cbn [bind].
  split; [reflexivity|]. split.
  - eexists. split; reflexivity.
  - eexists. split; [reflexivity|]. split; [reflexivity|].
    reflexivity.
Qed.

Lemma EventAPI_marker_optional_witness :
  EventAPI.init (PStr "bot!") (PStr "key") (PStr "event") None PNone PNone
                PNone true 100
  = EventAPI.init (PStr "bot") (PStr "key") (PStr "event") None PNone PNone
                  PNone true 100.
Proof.
  exact (proj1 (EventAPI_marker_optional "bot" (PStr "key") (PStr "event") None
                  PNone PNone PNone 100 eq_refl)).
Defined.

(* ================================================================== *)
(** ** Removing buttons and items *)

Section Removal.
Context {L : LeafCode}.

Lemma list_remove_Ok (x : pyval) (l l' : list pyval) :
  list_remove x l = Ok l' ->
  exists before y after,
    l = (before ++ y :: after)%list /\
    l' = (before ++ after)%list /\
    py_eq y x = true /\
    forall z, In z before -> py_eq z x = false.
Proof.
  revert l'. induction l as [|y l IH]; simpl; intros l' H.
  - discriminate H.
  - destruct (py_eq y x) eqn:E.
    + apply Ok_inj in H. subst l'. exists [], y, l.
      repeat split; try assumption. intros z [].
    + apply bind_Ok in H. destruct H as [r [Hr H]]. apply Ok_inj in H. subst l'.
      destruct (IH r Hr) as [before [y' [after [H1 [H2 [H3 H4]]]]]].
      exists (y :: before), y', after. subst. repeat split; try assumption.
      intros z [<-|Hz]; [exact E | apply H4; exact Hz].
Qed.

Lemma list_remove_Err (x : pyval) (l : list pyval) :
  list_in x l = false <-> list_remove x l = Err ValueError.
Proof.
  unfold list_in. induction l as [|y l IH]; simpl.
  - tauto.
  - destruct (py_eq y x); simpl.
    + split; discriminate.
    + rewrite IH. destruct (list_remove x l) as [r|e]; simpl.
      * split; discriminate.
      * split; intro H; inversion H; reflexivity.
Qed.

Lemma list_remove_fails (x : pyval) (l : list pyval) (e : error) :
  list_remove x l = Err e -> e = ValueError.
Proof.
  induction l as [|y l IH]; simpl; intro H.
  - inversion H. reflexivity.
  - destruct (py_eq y x); [discriminate H|].
    destruct (list_remove x l) as [r|e']; [discriminate H|].
    simpl in H. inversion H; subst. apply IH. reflexivity.
Qed.

Lemma list_remove_appended (x : pyval) (l : list pyval) :
  list_in x l = false -> py_eq x x = true ->
  list_remove x (l ++ [x]) = Ok l.
Proof.
  unfold list_in. intros Hin Hx. induction l as [|y l IH]; simpl.
  - rewrite Hx. reflexivity.
  - simpl in Hin. apply orb_false_iff in Hin. destruct Hin as [Hy Hin].
    rewrite Hy, (IH Hin). reflexivity.
Qed.

(** X11.  [remove_button] removes the first button equal to the one
    given and keeps the others in their order; when no button is
    equal it raises [ValueError], the only error it raises. *)
Theorem remove_button_first_equal (buttons : list pyval) (button : pyval) :
  (forall bs, ParentCardComponent.remove_button buttons button = Ok bs ->
     exists before b after,
       buttons = (before ++ b :: after)%list /\
       bs = (before ++ after)%list /\
       py_eq b button = true /\
       forall z, In z before -> py_eq z button = false) /\
  (list_in button buttons = false <->
   ParentCardComponent.remove_button buttons button = Err ValueError) /\
  (forall e, ParentCardComponent.remove_button buttons button = Err e ->
     e = ValueError).
Proof.
  unfold ParentCardComponent.remove_button. split; [|split].
  - intros bs H. apply list_remove_Ok. exact H.
  - apply list_remove_Err.
  - intros e H. apply (list_remove_fails _ _ _ H).
Qed.

(** X12.  Adding a finished [Button] with [add_button] and removing it
    with [remove_button] gives back the button list, when the button
    is equal to itself and to no button already in the list. *)
Theorem add_then_remove_button (buttons : list pyval) (fields : pydict) :
  py_eq (PLeaf Button fields) (PLeaf Button fields) = true ->
  list_in (PLeaf Button fields) buttons = false ->
  (bs <- ParentCardComponent.add_button buttons [PLeaf Button fields] [] ;;
   ParentCardComponent.remove_button bs (PLeaf Button fields))
  = Ok buttons.
Proof.
  intros Hx Hin.
  change (ParentCardComponent.add_button buttons [PLeaf Button fields] [])
    with (Ok (buttons ++ [PLeaf Button fields])%list).
  cbn [bind]. apply list_remove_appended; assumption.
Qed.

Lemma set_items_same (self : ListCardComponent.t) :
  ListCardComponent.set_items self (ListCardComponent.items self) = self.
Proof. destruct self. reflexivity. Qed.

(** X13.  [ListCardComponent.remove_item] raises [AssertionError] for
    anything that is not a [ListItem], and [ValueError] for a
    [ListItem] equal to no item of the card; otherwise it removes the
    first item equal to the one given and leaves the rest of the card
    as it was. *)
Theorem ListCard_remove_item_cases (self : ListCardComponent.t) (item : pyval) :
  (isinstance item (TLeaf ListItem) = false ->
   ListCardComponent.remove_item self item = Err AssertionError) /\
  (isinstance item (TLeaf ListItem) = true ->
   list_in item (ListCardComponent.items self) = false ->
   ListCardComponent.remove_item self item = Err ValueError) /\
  (isinstance item (TLeaf ListItem) = true ->
   list_in item (ListCardComponent.items self) = true ->
   exists before i after,
     ListCardComponent.items self = (before ++ i :: after)%list /\
     py_eq i item = true /\
     (forall z, In z before -> py_eq z item = false) /\
     ListCardComponent.remove_item self item
     = Ok (ListCardComponent.set_items self (before ++ after)%list)).
Proof.
  unfold ListCardComponent.remove_item. split; [|split].
  - intros ->. reflexivity.
  - intros -> ->. reflexivity.
  - intros -> Hin. rewrite Hin. cbn [negb bind].
    destruct (list_remove item (ListCardComponent.items self)) as [l|e] eqn:E.
    + destruct (list_remove_Ok _ _ _ E) as [before [i [after [H1 [H2 [H3 H4]]]]]].
      exists before, i, after. subst l. repeat split; assumption.
    + pose proof (list_remove_fails _ _ _ E) as ->.
      apply list_remove_Err in E. rewrite E in Hin. discriminate Hin.
Qed.

(** X14.  Adding a finished [ListItem] with [add_item] and removing it
    with [remove_item] gives back the card, when the item is equal to
    itself and to no item already on the card. *)
Theorem ListCard_add_then_remove_item (self : ListCardComponent.t)
  (fields : pydict) :
  py_eq (PLeaf ListItem fields) (PLeaf ListItem fields) = true ->
  list_in (PLeaf ListItem fields) (ListCardComponent.items self) = false ->
  (c <- ListCardComponent.add_item self [PLeaf ListItem fields] [] ;;
   ListCardComponent.remove_item c (PLeaf ListItem fields))
  = Ok self.
Proof.
  intros Hx Hin. rewrite add_item_prebuilt. cbn [bind].
  unfold ListCardComponent.remove_item.
  cbn [isinstance leaf_class_eqb bind ListCardComponent.items
       ListCardComponent.set_items].
  assert (Hmem : list_in (PLeaf ListItem fields)
                   (ListCardComponent.items self ++ [PLeaf ListItem fields])
                 = true).
  { unfold list_in. rewrite existsb_app. cbn [existsb]. rewrite Hx.
    rewrite orb_true_l. apply orb_true_r. }
  rewrite Hmem. cbn [negb bind].
  rewrite (list_remove_appended _ _ Hin Hx). cbn [bind].
  destruct self. reflexivity.
Qed.

End Removal.

Lemma add_then_remove_button_witness :
  (bs <- @ParentCardComponent.add_button SpecLeaves.code []
           [PLeaf Button Examples.button_fields] [] ;;
   @ParentCardComponent.remove_button SpecLeaves.code bs
     (PLeaf Button Examples.button_fields))
  = Ok [].
Proof.
  exact (@add_then_remove_button SpecLeaves.code [] Examples.button_fields
           eq_refl eq_refl).
Defined.

Lemma ListCard_add_then_remove_item_witness :
  (c <- @ListCardComponent.add_item SpecLeaves.code Examples.full_list_card
          [PLeaf ListItem Examples.item_fields] [] ;;
   @ListCardComponent.remove_item SpecLeaves.code c
     (PLeaf ListItem Examples.item_fields))
  = Ok Examples.full_list_card.
Proof.
  exact (@ListCard_add_then_remove_item SpecLeaves.code Examples.full_list_card
           Examples.item_fields eq_refl eq_refl).
Defined.

(* ================================================================== *)
(** ** Items of an item card *)

Lemma len_app {A : Type} (l m : list A) : len (l ++ m) = len l + len m.
Proof. unfold len. rewrite length_app. lia. Qed.

Lemma list_pop_at_last (l : list pyval) (a : pyval) (i : Z) :
  i = len l \/ i = -1 -> list_pop_at i (l ++ [a]) = Ok l.
Proof.
  intro Hi. unfold list_pop_at. rewrite len_app.
  change (len [a]) with 1.
  pose proof (len_nonneg l) as Hl.
  assert (Hj : (if i <? 0 then i + (len l + 1) else i) = len l).
  { destruct Hi as [->| ->].
    - destruct (Z.ltb_spec (len l) 0); [lia | reflexivity].
    - change (-1 <? 0) with true. cbv iota. lia. }
  rewrite Hj.
  replace (len l <? 0) with false by (symmetry; apply Z.ltb_ge; lia).
  replace (len l + 1 <=? len l) with false by (symmetry; apply Z.leb_gt; lia).
  cbn [orb]. unfold len. rewrite Nat2Z.id.
  rewrite firstn_app, firstn_all, Nat.sub_diag. cbn [firstn].
  rewrite skipn_all2 by (rewrite length_app; simpl; lia).
  rewrite !app_nil_r. reflexivity.
Qed.

Lemma list_pop_at_beyond (l : list pyval) (i : Z) :
  len l <= i -> list_pop_at i l = Err IndexError.
Proof.
  intro Hi. unfold list_pop_at. pose proof (len_nonneg l) as Hl.
  replace (i <? 0) with false by (symmetry; apply Z.ltb_ge; lia).
  replace (len l <=? i) with true by (symmetry; apply Z.leb_le; lia).
  rewrite orb_true_r. reflexivity.
Qed.

Section ItemCardItems.
Context {L : LeafCode}.

Lemma set_item_list_same (self : ItemCardComponent.t) :
  ItemCardComponent.set_item_list self (ItemCardComponent.item_list self) = self.
Proof. destruct self. reflexivity. Qed.

(** X15.  [ItemCardComponent.add_item] with one positional [Item]
    appends it.  With one positional argument that is not an [Item]
    and no [description] keyword it appends nothing and raises
    nothing.  With no positional argument and an [item] keyword it
    appends that item and then still calls the [Item] constructor on
    the same arguments: the call either raises, leaving the item
    appended, or appends a second, newly built item; it never returns
    with just the given item added. *)
Theorem ItemCard_add_item_cases (self : ItemCardComponent.t)
  (args : list pyval) (kwargs : pydict) :
  (forall a, args = [a] -> isinstance a (TLeaf Item) = true ->
     ItemCardComponent.add_item self args kwargs
     = (ItemCardComponent.append_item self a, Ok tt)) /\
  (forall a, args = [a] -> isinstance a (TLeaf Item) = false ->
     dict_mem "description" kwargs = false ->
     ItemCardComponent.add_item self args kwargs = (self, Ok tt)) /\
  (forall x, args = [] -> dict_get "item" kwargs = Some x ->
     (exists e, ItemCardComponent.add_item self args kwargs
                = (ItemCardComponent.append_item self x, Err e)) \/
     (exists i, ItemCardComponent.add_item self args kwargs
                = (ItemCardComponent.append_item
                     (ItemCardComponent.append_item self x) (PLeaf Item i),
                   Ok tt))) /\
  (forall x, args = [] -> dict_get "item" kwargs = Some x ->
     ItemCardComponent.add_item self args kwargs
     <> (ItemCardComponent.append_item self x, Ok tt)).
Proof.
  assert (K : forall x, args = [] -> dict_get "item" kwargs = Some x ->
     (exists e, ItemCardComponent.add_item self args kwargs
                = (ItemCardComponent.append_item self x, Err e)) \/
     (exists i, ItemCardComponent.add_item self args kwargs
                = (ItemCardComponent.append_item
                     (ItemCardComponent.append_item self x) (PLeaf Item i),
                   Ok tt))).
  { intros x -> Hx. unfold ItemCardComponent.add_item.
    change (len (@nil pyval) =? 1) with false. cbv iota. rewrite Hx.
    destruct (leaf_new Item [] kwargs) as [i|e].
    - right. exists i. reflexivity.
    - left. exists e. reflexivity. }
  split; [|split; [|split]].
  - intros a -> Ha. unfold ItemCardComponent.add_item.
    change (len [a] =? 1) with true. cbn [args_0]. rewrite Ha. reflexivity.
  - intros a -> Ha Hd. unfold ItemCardComponent.add_item.
    change (len [a] =? 1) with true. cbn [args_0]. rewrite Ha, Hd. reflexivity.
  - exact K.
  - intros x Hargs Hx H. destruct (K x Hargs Hx) as [[e He]|[i Hi]].
    + rewrite He in H. inversion H.
    + rewrite Hi in H. inversion H as [Hl].
      apply (f_equal (@length pyval)) in Hl.
      rewrite !length_app in Hl. simpl in Hl. lia.
Qed.

(** X16.  An [Item] added to an item card with [add_item] is the last
    of the list: [remove_item] with the index -1, or with the index
    the list had as length before, removes it and gives back the card;
    an index beyond it raises [IndexError]. *)
Theorem ItemCard_add_then_remove_last (self : ItemCardComponent.t)
  (a : pyval) (kwargs kwargs' : pydict) :
  isinstance a (TLeaf Item) = true ->
  ItemCardComponent.add_item self [a] kwargs
  = (ItemCardComponent.append_item self a, Ok tt) /\
  ItemCardComponent.remove_item (ItemCardComponent.append_item self a)
    [PInt (-1)] kwargs' = Ok self /\
  ItemCardComponent.remove_item (ItemCardComponent.append_item self a)
    [PInt (len (ItemCardComponent.item_list self))] kwargs' = Ok self /\
  ItemCardComponent.remove_item (ItemCardComponent.append_item self a)
    [PInt (len (ItemCardComponent.item_list self) + 1)] kwargs'
  = Err IndexError.
Proof.
  intro Ha. split; [|split; [|split]].
  - unfold ItemCardComponent.add_item.
    change (len [a] =? 1) with true. cbn [args_0]. rewrite Ha. reflexivity.
  - unfold ItemCardComponent.remove_item, ItemCardComponent.remove_item_branch.
    cbn [args_0 bind isinstance list_pop ItemCardComponent.append_item
         ItemCardComponent.set_item_list ItemCardComponent.item_list].
    rewrite list_pop_at_last by (right; reflexivity). cbn [bind].
    destruct self. reflexivity.
  - unfold ItemCardComponent.remove_item, ItemCardComponent.remove_item_branch.
    cbn [args_0 bind isinstance list_pop ItemCardComponent.append_item
         ItemCardComponent.set_item_list ItemCardComponent.item_list].
    rewrite list_pop_at_last by (left; reflexivity). cbn [bind].
    destruct self. reflexivity.
  - unfold ItemCardComponent.remove_item, ItemCardComponent.remove_item_branch.
    cbn [args_0 bind isinstance list_pop ItemCardComponent.append_item
         ItemCardComponent.set_item_list ItemCardComponent.item_list].
    rewrite list_pop_at_beyond; [reflexivity|].
    rewrite len_app. change (len [a]) with 1. lia.
Qed.

End ItemCardItems.

Lemma ItemCard_add_then_remove_last_witness :
  @ItemCardComponent.remove_item SpecLeaves.code
    (ItemCardComponent.append_item Examples.item_card
       (PLeaf Item [("title", PStr "new")]))
    [PInt (-1)] []
  = Ok Examples.item_card.
Proof.
  exact (proj1 (proj2 (@ItemCard_add_then_remove_last SpecLeaves.code
                         Examples.item_card (PLeaf Item [("title", PStr "new")])
                         [] [] eq_refl))).
Defined.

(* ================================================================== *)
(** ** What the cards render *)

Lemma mapM_Forall2 {A B : Type} (f : A -> result B) (l : list A) (rs : list B) :
  mapM f l = Ok rs -> Forall2 (fun x r => f x = Ok r) l rs.
Proof.
  revert rs. induction l as [|x l IH]; simpl; intros rs H.
  - apply Ok_inj in H. subst rs. constructor.
  - apply bind_Ok in H. destruct H as [y [Hy H]].
    apply bind_Ok in H. destruct H as [ys [Hys H]].
    apply Ok_inj in H. subst rs. constructor; [exact Hy | apply IH; exact Hys].
Qed.

Lemma Forall2_len {A B : Type} (R : A -> B -> Prop) (l : list A) (m : list B) :
  Forall2 R l m -> len l = len m.
Proof. intro H. unfold len. rewrite (Forall2_length H). reflexivity. Qed.

Lemma PDict_inj (a b : pydict) : PDict a = PDict b -> a = b.
Proof. intro H. inversion H. reflexivity. Qed.

(** The entry of a key bound once in a literal mapping. *)
Lemma remove_none_item_entry (k : string) (v : pyval) (base : pydict) :
  NoDup (map fst base) -> dict_get k base = Some v ->
  dict_get k (remove_none_item base) = entry v.
Proof.
  unfold entry. intros Hnd Hget. destruct (is_none v) eqn:E.
  - destruct v; try discriminate E.
    assert (H : dict_mem k (remove_none_item base) = false).
    { apply remove_none_item_absent. intros v Hin.
      clear E. induction base as [|[k' v'] base IH]; [contradiction|].
      simpl in Hget, Hnd. inversion Hnd as [|x l Hnotin Hnd']; subst.
      destruct (k' =? k)%string eqn:Ek.
      - apply String.eqb_eq in Ek. subst k'. destruct Hin as [Hin|Hin].
        + inversion Hin; subst. inversion Hget. reflexivity.
        + elim Hnotin. apply in_map_iff. exists (k, v). split; [reflexivity|exact Hin].
      - destruct Hin as [Hin|Hin].
        + inversion Hin; subst. rewrite String.eqb_refl in Ek. discriminate Ek.
        + apply IH; assumption. }
    unfold dict_mem in H. destruct (dict_get k (remove_none_item base));
      [discriminate H | reflexivity].
  - apply remove_none_item_get; assumption.
Qed.

Ltac distinct_keys := repeat constructor; simpl; intuition discriminate.

Section Rendered.
Context {L : LeafCode}.

(** X17.  A [CommerceCardComponent] that renders has in its mapping the
    price, which is an integer, the renderings of its thumbnails in
    their order, and each of title, description, currency, discount,
    discount rate and discount price under its wire key as it is
    stored, or no such key when the field is [None]: a discount price
    alone gives [discountPrice] and neither [discount] nor
    [discountRate]. *)
Theorem CommerceCard_render_fields (self : CommerceCardComponent.t) (d : pydict) :
  CommerceCardComponent.render self = Ok (PDict d) ->
  dict_get "price" d = Some (CommerceCardComponent.price self) /\
  isinstance (CommerceCardComponent.price self) TInt = true /\
  (exists ths,
     dict_get "thumbnails" d = Some (PList ths) /\
     Forall2 (fun v r => call_render v = Ok r)
             (CommerceCardComponent.thumbnails self) ths) /\
  dict_get "title" d = entry (CommerceCardComponent.title self) /\
  dict_get "description" d = entry (CommerceCardComponent.description self) /\
  dict_get "currency" d = entry (CommerceCardComponent.currency self) /\
  dict_get "discount" d = entry (CommerceCardComponent.discount self) /\
  dict_get "discountRate" d = entry (CommerceCardComponent.discount_rate self) /\
  dict_get "discountPrice" d = entry (CommerceCardComponent.discount_price self).
Proof.
  unfold CommerceCardComponent.render. intro H.
  apply bind_Ok in H. destruct H as [[] [Hv H]].
  apply bind_Ok in H. destruct H as [ths [Hths H]].
  apply bind_Ok in H. destruct H as [pr [_ H]].
  apply bind_Ok in H. destruct H as [bs [_ H]].
  apply Ok_inj in H. apply PDict_inj in H. subst d.
  assert (Hp : isinstance (CommerceCardComponent.price self) TInt = true /\
               is_none (CommerceCardComponent.price self) = false).
  { unfold CommerceCardComponent.validate in Hv.
    apply bind_Ok in Hv. destruct Hv as [[] [_ Hv]].
    apply bind_Ok in Hv. destruct Hv as [[] [Hp _]].
    unfold validate_int, validate_type in Hp.
    pose proof (forM_Ok_inv _ _ Hp _ (or_introl eq_refl)) as Hp'.
    apply validate_one_Ok in Hp'. destruct Hp' as [[_ Hp']|[H1 H2]];
      [discriminate Hp' | split; assumption]. }
  destruct Hp as [Hp1 Hp2].
  match goal with
  | |- context [remove_none_item ?b] =>
      assert (Hnd : NoDup (map fst b)) by distinct_keys
  end.
  split.
  { rewrite (remove_none_item_entry "price" _ _ Hnd eq_refl).
    unfold entry. rewrite Hp2. reflexivity. }
  split; [exact Hp1|]. split.
  { exists ths. split; [|apply mapM_Forall2; exact Hths].
    apply (remove_none_item_entry "thumbnails" _ _ Hnd eq_refl). }
  split; [apply (remove_none_item_entry "title" _ _ Hnd eq_refl)|].
  split; [apply (remove_none_item_entry "description" _ _ Hnd eq_refl)|].
  split; [apply (remove_none_item_entry "currency" _ _ Hnd eq_refl)|].
  split; [apply (remove_none_item_entry "discount" _ _ Hnd eq_refl)|].
  split; [apply (remove_none_item_entry "discountRate" _ _ Hnd eq_refl)|].
  apply (remove_none_item_entry "discountPrice" _ _ Hnd eq_refl).
Qed.

(** X18.  The cards do not check that their collection is not empty:
    a [CommerceCardComponent] that validates still validates with no
    thumbnail at all, and where the card renders so does the one
    without thumbnails, with an empty [thumbnails] list; the same for
    an [ItemCardComponent], its items and [itemList]. *)
Theorem cards_accept_empty_collections :
  (forall bs price ths title description currency discount discount_rate
          discount_price profile,
     CommerceCardComponent.validate
       (CommerceCardComponent.mk bs price ths title description currency
          discount discount_rate discount_price profile) = Ok tt ->
     CommerceCardComponent.validate
       (CommerceCardComponent.mk bs price [] title description currency
          discount discount_rate discount_price profile) = Ok tt /\
     (forall out,
        CommerceCardComponent.render
          (CommerceCardComponent.mk bs price ths title description currency
             discount discount_rate discount_price profile) = Ok out ->
        exists d,
          CommerceCardComponent.render
            (CommerceCardComponent.mk bs price [] title description currency
               discount discount_rate discount_price profile) = Ok (PDict d) /\
          dict_get "thumbnails" d = Some (PList []))) /\
  (forall bs items thumbnail head profile image_title alignment summary title
          description layout,
     ItemCardComponent.validate
       (ItemCardComponent.mk bs items thumbnail head profile image_title
          alignment summary title description layout) = Ok tt ->
     ItemCardComponent.validate
       (ItemCardComponent.mk bs [] thumbnail head profile image_title
          alignment summary title description layout) = Ok tt /\
     (forall out,
        ItemCardComponent.render
          (ItemCardComponent.mk bs items thumbnail head profile image_title
             alignment summary title description layout) = Ok out ->
        exists d,
          ItemCardComponent.render
            (ItemCardComponent.mk bs [] thumbnail head profile image_title
               alignment summary title description layout) = Ok (PDict d) /\
          dict_get "itemList" d = Some (PList []))).
Proof.
  split.
  - intros bs price ths title description currency discount discount_rate
           discount_price profile Hv.
    assert (Hv' : CommerceCardComponent.validate
                    (CommerceCardComponent.mk bs price [] title description
                       currency discount discount_rate discount_price profile)
                  = Ok tt).
    { unfold CommerceCardComponent.validate in *.
      cbn [CommerceCardComponent.buttons CommerceCardComponent.price
           CommerceCardComponent.thumbnails CommerceCardComponent.title
           CommerceCardComponent.description CommerceCardComponent.currency
           CommerceCardComponent.discount CommerceCardComponent.discount_rate
           CommerceCardComponent.discount_price CommerceCardComponent.profile]
        in *.
      apply bind_Ok in Hv. destruct Hv as [[] [H1 Hv]].
      apply bind_Ok in Hv. destruct Hv as [[] [H2 Hv]].
      apply bind_Ok in Hv. destruct Hv as [[] [_ Hv]].
      rewrite H1, H2. exact Hv. }
    split; [exact Hv'|].
    intros out H. unfold CommerceCardComponent.render in *.
    rewrite Hv'. rewrite Hv in H.
    cbn [bind mapM CommerceCardComponent.buttons CommerceCardComponent.price
         CommerceCardComponent.thumbnails CommerceCardComponent.title
         CommerceCardComponent.description CommerceCardComponent.currency
         CommerceCardComponent.discount CommerceCardComponent.discount_rate
         CommerceCardComponent.discount_price CommerceCardComponent.profile]
      in *.
    apply bind_Ok in H. destruct H as [rs [_ H]].
    apply bind_Ok in H. destruct H as [pr [Hpr H]].
    apply bind_Ok in H. destruct H as [rbs [Hbs _]].
    rewrite Hpr, Hbs. cbn [bind]. eexists. split; [reflexivity|].
    match goal with
    | |- context [remove_none_item ?b] =>
        assert (Hnd : NoDup (map fst b)) by distinct_keys
    end.
    apply (remove_none_item_entry "thumbnails" _ _ Hnd eq_refl).
  - intros bs items thumbnail head profile image_title alignment summary title
           description layout Hv.
    assert (Hv' : ItemCardComponent.validate
                    (ItemCardComponent.mk bs [] thumbnail head profile
                       image_title alignment summary title description layout)
                  = Ok tt).
    { unfold ItemCardComponent.validate in *.
      cbn [ItemCardComponent.buttons ItemCardComponent.item_list
           ItemCardComponent.thumbnail ItemCardComponent.head
           ItemCardComponent.profile ItemCardComponent.image_title
           ItemCardComponent.item_list_alignment
           ItemCardComponent.item_list_summary ItemCardComponent.title
           ItemCardComponent.description ItemCardComponent.button_layout] in *.
      apply bind_Ok in Hv. destruct Hv as [[] [H1 Hv]].
      apply bind_Ok in Hv. destruct Hv as [[] [_ Hv]].
      rewrite H1. exact Hv. }
    split; [exact Hv'|].
    intros out H. unfold ItemCardComponent.render in *.
    rewrite Hv'. rewrite Hv in H.
    cbn [bind mapM ItemCardComponent.buttons ItemCardComponent.item_list
         ItemCardComponent.thumbnail ItemCardComponent.head
         ItemCardComponent.profile ItemCardComponent.image_title
         ItemCardComponent.item_list_alignment
         ItemCardComponent.item_list_summary ItemCardComponent.title
         ItemCardComponent.description ItemCardComponent.button_layout] in *.
    apply bind_Ok in H. destruct H as [th [Hth H]].
    apply bind_Ok in H. destruct H as [pr [Hpr H]].
    apply bind_Ok in H. destruct H as [it [Hit H]].
    apply bind_Ok in H. destruct H as [il [_ H]].
    apply bind_Ok in H. destruct H as [su [Hsu H]].
    apply bind_Ok in H. destruct H as [rbs [Hbs _]].
    rewrite Hth, Hpr, Hit, Hsu, Hbs. cbn [bind]. eexists. split; [reflexivity|].
    match goal with
    | |- context [remove_none_item ?b] =>
        assert (Hnd : NoDup (map fst b)) by distinct_keys
    end.
    apply (remove_none_item_entry "itemList" _ _ Hnd eq_refl).
Qed.

End Rendered.

Lemma CommerceCard_render_fields_witness :
  let d := [ ("price", PInt 10000);
             ("thumbnails",
              PList [PDict [("imageUrl", PStr "https://example.com/image.jpg")]]);
             ("discountPrice", PInt 9000) ] in
  dict_get "discount" d = None /\
  dict_get "discountRate" d = None /\
  dict_get "discountPrice" d = Some (PInt 9000).
Proof.
  exact (proj2 (proj2 (proj2 (proj2 (proj2 (proj2
           (@CommerceCard_render_fields SpecLeaves.code Examples.commerce_card
              _ eq_refl))))))).
Defined.

Section RenderedMore.
Context {L : LeafCode}.

(** X19.  A [BasicCardComponent] without thumbnail passes
    [validate()] whenever the same card with a thumbnail does, yet its
    [render()] raises [AttributeError]: the thumbnail is rendered
    without having been required.  More generally [validate()] gives
    the same result, error included, with [None] as thumbnail as with
    a [Thumbnail]. *)
Theorem BasicCard_without_thumbnail (bs : list pyval) (fields : pydict)
  (title description forwardable : pyval) :
  BasicCardComponent.validate
    (BasicCardComponent.mk bs (PLeaf Thumbnail fields) title description
       forwardable) = Ok tt ->
  BasicCardComponent.validate
    (BasicCardComponent.mk bs PNone title description forwardable) = Ok tt /\
  BasicCardComponent.render
    (BasicCardComponent.mk bs PNone title description forwardable)
  = Err AttributeError /\
  BasicCardComponent.validate
    (BasicCardComponent.mk bs PNone title description forwardable)
  = BasicCardComponent.validate
      (BasicCardComponent.mk bs (PLeaf Thumbnail fields) title description
         forwardable).
Proof.
  intro Hv.
  assert (Hn : BasicCardComponent.validate
                 (BasicCardComponent.mk bs PNone title description forwardable)
               = BasicCardComponent.validate
                   (BasicCardComponent.mk bs (PLeaf Thumbnail fields) title
                      description forwardable)).
  { unfold BasicCardComponent.validate.
    cbn [BasicCardComponent.buttons BasicCardComponent.thumbnail
         BasicCardComponent.title BasicCardComponent.description].
    reflexivity. }
  split; [rewrite Hn; exact Hv|]. split; [|exact Hn].
  unfold BasicCardComponent.render. rewrite Hn, Hv. reflexivity.
Qed.

(** X20.  [TextCardComponent.validate] type-checks the title when
    there is one and the description only when there is no title.  So
    with a string title the description is not checked at all: the
    card validates as its buttons do and, with no button, renders the
    description as it is stored, whatever it holds.  With a title that
    is neither [None] nor a string it raises [InvalidTypeError]; with
    no title it accepts exactly a string description. *)
Theorem TextCard_description_unchecked (s : string) (description : pyval) :
  (forall bs,
     TextCardComponent.validate (TextCardComponent.mk bs (PStr s) description)
     = ParentCardComponent.validate bs) /\
  TextCardComponent.render (TextCardComponent.mk [] (PStr s) description)
  = Ok (PDict (("title", PStr s)
               :: match entry description with
                  | Some v => [("description", v)]
                  | None => []
                  end)) /\
  (forall title,
     is_none title = false -> isinstance title TStr = false ->
     TextCardComponent.validate (TextCardComponent.mk [] title description)
     = Err InvalidTypeError) /\
  (TextCardComponent.validate (TextCardComponent.mk [] PNone description) = Ok tt
   <-> exists s', description = PStr s').
Proof.
  split; [|split; [|split]].
  - intro bs. unfold TextCardComponent.validate.
    cbn [TextCardComponent.buttons TextCardComponent.title
         TextCardComponent.description is_none andb].
    destruct (ParentCardComponent.validate bs) as [[]|e]; reflexivity.
  - unfold entry. destruct description; reflexivity.
  - intros title Hn Hs.
    destruct title; try discriminate Hn; try discriminate Hs; reflexivity.
  - split.
    + intro H. destruct description; try discriminate H.
      eexists. reflexivity.
    + intros [s' ->]. reflexivity.
Qed.

(** X21.  A [ListCardComponent] that renders has an [items] list with
    one rendering per item, in the order of the items, at least one
    and at most [max_items] of them.  With no button there is no
    [buttons] key; otherwise [buttons] holds one rendering per button,
    in order, at most [max_buttons] of them. *)
Theorem ListCard_render_in_order (self : ListCardComponent.t) (d : pydict) :
  ListCardComponent.render self = Ok (PDict d) ->
  (exists rs,
     dict_get "items" d = Some (PList rs) /\
     Forall2 (fun v r => call_render v = Ok r) (ListCardComponent.items self) rs /\
     1 <= len rs <= ListCardComponent.max_items self) /\
  (ListCardComponent.buttons self = [] -> dict_get "buttons" d = None) /\
  (ListCardComponent.buttons self <> [] ->
   exists rs,
     dict_get "buttons" d = Some (PList rs) /\
     Forall2 (fun v r => call_render v = Ok r)
             (ListCardComponent.buttons self) rs /\
     len rs <= ListCardComponent.max_buttons self).
Proof.
  unfold ListCardComponent.render. intro H.
  apply bind_Ok in H. destruct H as [[] [Hv H]].
  apply bind_Ok in H. destruct H as [h [_ H]].
  apply bind_Ok in H. destruct H as [its [Hits H]].
  apply bind_Ok in H. destruct H as [rbs [Hbs H]].
  apply Ok_inj in H. apply PDict_inj in H. subst d.
  unfold ListCardComponent.validate in Hv.
  apply bind_Ok in Hv. destruct Hv as [[] [_ Hv]].
  apply bind_Ok in Hv. destruct Hv as [[] [Hmin Hv]].
  apply bind_Ok in Hv. destruct Hv as [[] [Hmax Hv]].
  apply bind_Ok in Hv. destruct Hv as [[] [Hbmax _]].
  destruct (Z.ltb_spec (len (ListCardComponent.items self)) 1) as [|Hmin'];
    [discriminate Hmin|].
  rewrite Z.gtb_ltb in Hmax, Hbmax.
  destruct (Z.ltb_spec (ListCardComponent.max_items self)
                       (len (ListCardComponent.items self))) as [|Hmax'];
    [discriminate Hmax|].
  destruct (Z.ltb_spec (ListCardComponent.max_buttons self)
                       (len (ListCardComponent.buttons self))) as [|Hbmax'];
    [discriminate Hbmax|].
  match goal with
  | |- context [remove_none_item ?b] =>
      assert (Hnd : NoDup (map fst b)) by distinct_keys
  end.
  split; [|split].
  - unfold render_list_if in Hits.
    destruct (ListCardComponent.items self) as [|i rest] eqn:E.
    + rewrite len_nil in Hmin'. lia.
    + apply bind_Ok in Hits. destruct Hits as [rs [Hrs Hits]].
      apply Ok_inj in Hits. subst its. exists rs.
      split; [apply (remove_none_item_entry "items" _ _ Hnd eq_refl)|].
      pose proof (mapM_Forall2 _ _ _ Hrs) as F.
      split; [exact F|]. rewrite <- (Forall2_len _ _ _ F). lia.
  - intro Hb. rewrite Hb in Hbs. apply Ok_inj in Hbs. subst rbs.
    apply (remove_none_item_entry "buttons" _ _ Hnd eq_refl).
  - intro Hb. unfold render_list_if in Hbs.
    destruct (ListCardComponent.buttons self) as [|b bs] eqn:E;
      [elim Hb; reflexivity|].
    apply bind_Ok in Hbs. destruct Hbs as [rs [Hrs Hbs]].
    apply Ok_inj in Hbs. subst rbs. exists rs.
    split; [apply (remove_none_item_entry "buttons" _ _ Hnd eq_refl)|].
    pose proof (mapM_Forall2 _ _ _ Hrs) as F.
    split; [exact F|]. rewrite <- (Forall2_len _ _ _ F). lia.
Qed.

End RenderedMore.

Lemma BasicCard_without_thumbnail_witness :
  BasicCardComponent.validate
    (BasicCardComponent.mk [] PNone (PStr "title") PNone (PBool false)) = Ok tt /\
  @BasicCardComponent.render SpecLeaves.code
    (BasicCardComponent.mk [] PNone (PStr "title") PNone (PBool false))
  = Err AttributeError.
Proof.
  pose proof (@BasicCard_without_thumbnail SpecLeaves.code []
                [("image_url", PStr "https://example.com/image.jpg")]
                (PStr "title") PNone (PBool false) eq_refl) as [Hv [Hr _]].
  split; [exact Hv | exact Hr].
Defined.

Lemma ListCard_render_in_order_witness :
  exists rs,
    dict_get "items"
      [ ("header", PDict [("title", PStr "header")]);
        ("items", PList [ PDict [("title", PStr "1")]; PDict [("title", PStr "2")];
                          PDict [("title", PStr "3")]; PDict [("title", PStr "4")];
                          PDict [("title", PStr "5")] ]) ]
    = Some (PList rs) /\
    Forall2 (fun v r => @call_render SpecLeaves.code v = Ok r)
            (ListCardComponent.items Examples.full_list_card) rs /\
    1 <= len rs <= ListCardComponent.max_items Examples.full_list_card.
Proof.
  exact (proj1 (@ListCard_render_in_order SpecLeaves.code
                  Examples.full_list_card _ eq_refl)).
Defined.

(* ================================================================== *)
(** ** The button list and the item card mapping *)

Lemma forM_Err_inv {A : Type} (f : A -> result unit) (l : list A) (e : error) :
  forM_ f l = Err e -> exists x, In x l /\ f x = Err e.
Proof.
  induction l as [|y l IH]; simpl; intro H; [discriminate H|].
  destruct (f y) as [[]|e'] eqn:E.
  - destruct (IH H) as [x [Hin Hx]]. exists x. split; [right; exact Hin | exact Hx].
  - inversion H; subst. exists y. split; [left; reflexivity | exact E].
Qed.

Section ButtonsAndItems.
Context {L : LeafCode}.

(** X22.  The validation of the card base accepts a button list
    exactly when each entry is a [Button] or [None], and raises
    [InvalidTypeError] otherwise.  [add_button] with the [button]
    keyword appends what it is given without looking at it, so a value
    that is not a [Button] is only found by [validate()]. *)
Theorem ParentCard_validate_iff (buttons : list pyval) :
  (ParentCardComponent.validate buttons = Ok tt <->
   forall b, In b buttons ->
             b = PNone \/ isinstance b (TLeaf Button) = true) /\
  (forall e, ParentCardComponent.validate buttons = Err e ->
             e = InvalidTypeError) /\
  (forall x,
     ParentCardComponent.add_button buttons [] [("button", x)]
     = Ok (buttons ++ [x])%list) /\
  (forall x, is_none x = false -> isinstance x (TLeaf Button) = false ->
     ParentCardComponent.validate (buttons ++ [x]) = Err InvalidTypeError).
Proof.
  assert (V : ParentCardComponent.validate buttons
              = forM_ (fun b => validate_type (TLeaf Button) [b] false) buttons).
  { unfold ParentCardComponent.validate, ParentComponent.validate.
    cbn [bind]. destruct buttons; reflexivity. }
  assert (F : forall b, validate_type (TLeaf Button) [b] false
                        = validate_one (TLeaf Button) false b).
  { intro b. unfold validate_type. cbn [forM_].
    destruct (validate_one (TLeaf Button) false b) as [[]|e]; reflexivity. }
  assert (E : forall bs e, ParentCardComponent.validate bs = Err e ->
                           e = InvalidTypeError).
  { intros bs e H.
    assert (V' : ParentCardComponent.validate bs
                 = forM_ (fun b => validate_type (TLeaf Button) [b] false) bs).
    { unfold ParentCardComponent.validate, ParentComponent.validate.
      cbn [bind]. destruct bs; reflexivity. }
    rewrite V' in H. apply forM_Err_inv in H. destruct H as [x [_ Hx]].
    rewrite F in Hx. apply (validate_one_error _ _ _ _ Hx). }
  split; [|split; [|split]].
  - rewrite V. split.
    + intros H b Hb. pose proof (forM_Ok_inv _ _ H b Hb) as Hb'.
      cbv beta in Hb'. rewrite F in Hb'. apply validate_one_Ok in Hb'.
      destruct Hb' as [[Hn _]|[_ Hi]]; [left|right; exact Hi].
      destruct b; try discriminate Hn. reflexivity.
    + intro H. apply forM_all_Ok. intros b Hb. rewrite F.
      apply validate_one_Ok. destruct (H b Hb) as [->|Hi].
      * left. split; reflexivity.
      * destruct (is_none b) eqn:Hn.
        -- destruct b; discriminate.
        -- right. split; [reflexivity | exact Hi].
  - apply E.
  - intro x. reflexivity.
  - intros x Hn Hi.
    destruct (ParentCardComponent.validate (buttons ++ [x])) as [[]|e] eqn:Hv.
    + exfalso.
      assert (V' : ParentCardComponent.validate (buttons ++ [x])
                   = forM_ (fun b => validate_type (TLeaf Button) [b] false)
                           (buttons ++ [x])).
      { unfold ParentCardComponent.validate, ParentComponent.validate.
        cbn [bind]. destruct (buttons ++ [x])%list; reflexivity. }
      rewrite V' in Hv.
      pose proof (forM_Ok_inv _ _ Hv x) as Hx.
      specialize (Hx ltac:(apply in_or_app; right; left; reflexivity)).
      cbv beta in Hx. rewrite F in Hx. apply validate_one_Ok in Hx.
      destruct Hx as [[Hx _]|[_ Hx]]; congruence.
    + rewrite (E _ _ Hv). reflexivity.
Qed.

(** X23.  An [ItemCardComponent] that renders has in its mapping the
    renderings of its items, one per item in their order, under
    [itemList]; the head, when it is a non-empty value, wrapped as a
    mapping with the one key [title], and no [head] key when it is
    [None] or the empty string; and title, description, alignment and
    button layout under their wire keys as stored, or no key when
    [None]. *)
Theorem ItemCard_render_fields (self : ItemCardComponent.t) (d : pydict) :
  ItemCardComponent.render self = Ok (PDict d) ->
  (exists il,
     dict_get "itemList" d = Some (PList il) /\
     Forall2 (fun v r => call_render v = Ok r)
             (ItemCardComponent.item_list self) il) /\
  dict_get "head" d
  = (if truthy (ItemCardComponent.head self)
     then Some (PDict [("title", ItemCardComponent.head self)]) else None) /\
  dict_get "title" d = entry (ItemCardComponent.title self) /\
  dict_get "description" d = entry (ItemCardComponent.description self) /\
  dict_get "itemListAlignment" d
  = entry (ItemCardComponent.item_list_alignment self) /\
  dict_get "buttonLayout" d = entry (ItemCardComponent.button_layout self).
Proof.
  unfold ItemCardComponent.render. intro H.
  apply bind_Ok in H. destruct H as [[] [_ H]].
  apply bind_Ok in H. destruct H as [th [_ H]].
  apply bind_Ok in H. destruct H as [pr [_ H]].
  apply bind_Ok in H. destruct H as [it [_ H]].
  apply bind_Ok in H. destruct H as [il [Hil H]].
  apply bind_Ok in H. destruct H as [su [_ H]].
  apply bind_Ok in H. destruct H as [bs [_ H]].
  apply Ok_inj in H. apply PDict_inj in H. subst d.
  match goal with
  | |- context [remove_none_item ?b] =>
      assert (Hnd : NoDup (map fst b)) by distinct_keys
  end.
  split.
  { exists il. split; [|apply mapM_Forall2; exact Hil].
    apply (remove_none_item_entry "itemList" _ _ Hnd eq_refl). }
  split.
  { rewrite (remove_none_item_entry "head" _ _ Hnd eq_refl).
    destruct (truthy (ItemCardComponent.head self)); reflexivity. }
  split; [apply (remove_none_item_entry "title" _ _ Hnd eq_refl)|].
  split; [apply (remove_none_item_entry "description" _ _ Hnd eq_refl)|].
  split; [apply (remove_none_item_entry "itemListAlignment" _ _ Hnd eq_refl)|].
  apply (remove_none_item_entry "buttonLayout" _ _ Hnd eq_refl).
Qed.

End ButtonsAndItems.

Lemma ItemCard_render_fields_witness :
  let d := [ ("head", PDict [("title", PStr "head")]);
             ("itemList", PList [PDict [("title", PStr "t");
                                        ("description", PStr "d")]]);
             ("title", PStr "title") ] in
  (exists il,
     dict_get "itemList" d = Some (PList il) /\
     Forall2 (fun v r => @call_render SpecLeaves.code v = Ok r)
             [PLeaf Item [("title", PStr "t"); ("description", PStr "d")]] il) /\
  dict_get "head" d = Some (PDict [("title", PStr "head")]).
Proof.
  pose proof (@ItemCard_render_fields SpecLeaves.code
                (ItemCardComponent.mk []
                   [PLeaf Item [("title", PStr "t"); ("description", PStr "d")]]
                   PNone (PStr "head") PNone PNone PNone PNone (PStr "title")
                   PNone PNone)
                _ eq_refl) as [H1 [H2 _]].
  split; [exact H1 | exact H2].
Defined.

(* ================================================================== *)
(** ** The further properties on the example objects *)

Lemma ListCard_remove_item_cases_witness :
  exists before i after,
    ListCardComponent.items Examples.full_list_card
    = (before ++ i :: after)%list /\
    @py_eq SpecLeaves.code i (Examples.list_item "3") = true /\
    (forall z, In z before ->
               @py_eq SpecLeaves.code z (Examples.list_item "3") = false) /\
    @ListCardComponent.remove_item SpecLeaves.code Examples.full_list_card
      (Examples.list_item "3")
    = Ok (ListCardComponent.set_items Examples.full_list_card
            (before ++ after)%list).
Proof.
  exact (proj2 (proj2 (@ListCard_remove_item_cases SpecLeaves.code
                         Examples.full_list_card (Examples.list_item "3")))
           eq_refl eq_refl).
Defined.

Lemma ItemCard_add_item_cases_witness :
  @ItemCardComponent.add_item SpecLeaves.code Examples.item_card
    [PStr "title"] [] = (Examples.item_card, Ok tt) /\
  @ItemCardComponent.add_item SpecLeaves.code Examples.item_card
    [] [("item", PLeaf Item [("title", PStr "new")])]
  <> (ItemCardComponent.append_item Examples.item_card
        (PLeaf Item [("title", PStr "new")]), Ok tt).
Proof.
  pose proof (@ItemCard_add_item_cases SpecLeaves.code Examples.item_card
                [PStr "title"] []) as [_ [H2 _]].
  pose proof (@ItemCard_add_item_cases SpecLeaves.code Examples.item_card
                [] [("item", PLeaf Item [("title", PStr "new")])])
    as [_ [_ [_ H4]]].
  split.
  - exact (H2 (PStr "title") eq_refl eq_refl eq_refl).
  - exact (H4 (PLeaf Item [("title", PStr "new")]) eq_refl eq_refl).
Defined.

Lemma cards_accept_empty_collections_witness :
  exists d,
    @CommerceCardComponent.render SpecLeaves.code
      (CommerceCardComponent.mk [] (PInt 10000) [] PNone PNone PNone PNone
         PNone (PInt 9000) PNone) = Ok (PDict d) /\
    dict_get "thumbnails" d = Some (PList []).
Proof.
  destruct (@cards_accept_empty_collections SpecLeaves.code) as [H _].
  destruct (H [] (PInt 10000)
              [PLeaf Thumbnail [("image_url", PStr "https://example.com/image.jpg")]]
              PNone PNone PNone PNone PNone (PInt 9000) PNone eq_refl)
    as [_ Hr].
  exact (Hr _ eq_refl).
Defined.

Lemma ParentCard_validate_iff_witness :
  ParentCardComponent.validate ([PLeaf Button Examples.button_fields] ++ [PInt 5])
  = Err InvalidTypeError.
Proof.
  exact (proj2 (proj2 (proj2
           (@ParentCard_validate_iff SpecLeaves.code
              [PLeaf Button Examples.button_fields])))
           (PInt 5) eq_refl eq_refl).
Defined.
